(** * janhesters/geromekevin: the blog's templates and page queries

    A shallow embedding of the React templates and GraphQL page queries of
    the blog, with the properties its specification states about them.

    Conventions of the embedding.
    - A JavaScript string is a [string]; text outside ASCII appears as its
      UTF-8 bytes, and strings are ordered character by character
      ([String.leb]), which is how [Array.prototype.sort] orders them.
    - A nullable GraphQL field is an [option]; [None] is [null].
    - A rendered React element is a [vnode]: its tag, its string props, its
      inline style (the entries in source order, a spread first where the
      source spreads) and its children.  A child expression that evaluates
      to [null] renders nothing and is left out of the child list.
    - What the templates take from other modules (the typography helpers,
      lodash's [kebabCase], [formatReadingTime], the framework's date
      formatting and path prefix) is the class [Imports]. *)

From Stdlib Require Import String Ascii List Bool Arith NArith Lia.
From Stdlib Require Import Permutation Sorting.Sorted DecimalString QArith_base.
Import ListNotations.
Set Warnings "-register-all".
Local Close Scope Q_scope.
Local Open Scope string_scope.
Local Open Scope list_scope.

(** ** JavaScript values *)

(** The double-quote character, the line feed and the no-break space
    (U+00A0). *)
Definition dquote : string := String "034"%char EmptyString.
Definition newline : string := String "010"%char EmptyString.
Definition nbsp : string := String "194"%char (String "160"%char EmptyString).

(** [`${n}`] for a non-negative integer. *)
Definition numToString (n : nat) : string :=
  NilEmpty.string_of_uint (Nat.to_uint n).

(** Truthiness of a nullable string: [null] and [''] are falsy. *)
Definition truthy (v : option string) : bool :=
  match v with
  | Some s => negb (s =? EmptyString)
  | None => false
  end.

(** [a || b] where [a] is a nullable string and [b] a string. *)
Definition js_or (a : option string) (b : string) : string :=
  match a with
  | Some s => if truthy a then s else b
  | None => b
  end.

(** [a || []] where [a] is a nullable array: every array is truthy. *)
Definition js_or_nil {A : Type} (a : option (list A)) : list A :=
  match a with
  | Some l => l
  | None => []
  end.

(** [Array.prototype.sort] without a comparator, on strings. *)
Fixpoint sort_insert (x : string) (l : list string) : list string :=
  match l with
  | [] => [x]
  | h :: t => if String.leb x h then x :: l else h :: sort_insert x t
  end.

Definition js_sort (l : list string) : list string :=
  fold_right sort_insert [] l.

(** [Array.prototype.map] with the index passed to the callback. *)
Fixpoint mapi_from {A B : Type} (i : nat) (f : A -> nat -> B) (l : list A)
  : list B :=
  match l with
  | [] => []
  | x :: t => f x i :: mapi_from (S i) f t
  end.

Definition mapi {A B : Type} (f : A -> nat -> B) (l : list A) : list B :=
  mapi_from 0 f l.

(** ** Rendered markup *)

Definition props := list (string * string).

Inductive vnode : Type :=
| VText (s : string)
| VElem (tag : string) (attrs : props) (style : props) (children : list vnode)
| VHtml (tag : string) (attrs : props) (html : string)
| VComp (name : string) (attrs : props).

(** A JSX child [{e}] where [e] is a nullable string. *)
Definition jsx_text (e : option string) : list vnode :=
  match e with
  | Some s => [VText s]
  | None => []
  end.

(** A prop [name={e}] where [e] is a nullable string. *)
Definition jsx_prop (name : string) (e : option string) : props :=
  match e with
  | Some s => [(name, s)]
  | None => []
  end.

Definition tagOf (v : vnode) : string :=
  match v with
  | VText _ => EmptyString
  | VElem t _ _ _ => t
  | VHtml t _ _ => t
  | VComp n _ => n
  end.

Definition attrsOf (v : vnode) : props :=
  match v with
  | VText _ => []
  | VElem _ a _ _ => a
  | VHtml _ a _ => a
  | VComp _ a => a
  end.

Definition styleOf (v : vnode) : props :=
  match v with
  | VElem _ _ s _ => s
  | _ => []
  end.

Definition childrenOf (v : vnode) : list vnode :=
  match v with
  | VElem _ _ _ c => c
  | _ => []
  end.

Fixpoint lookup (name : string) (p : props) : option string :=
  match p with
  | [] => None
  | (k, v) :: t => if k =? name then Some v else lookup name t
  end.

Definition attr (name : string) (v : vnode) : option string :=
  lookup name (attrsOf v).

(** The text a node displays: its text descendants, in document order. *)
Fixpoint textOf (v : vnode) : string :=
  match v with
  | VText s => s
  | VElem _ _ _ c => String.concat EmptyString (map textOf c)
  | VHtml _ _ _ => EmptyString
  | VComp _ _ => EmptyString
  end.

(** The markup a node injects through [dangerouslySetInnerHTML]. *)
Definition innerHTML (v : vnode) : option string :=
  match v with
  | VHtml _ _ h => Some h
  | _ => None
  end.

(** Every element or component named [t] below (and including) [v], in
    document order. *)
Fixpoint byTag (t : string) (v : vnode) : list vnode :=
  (if tagOf v =? t then [v] else []) ++
  match v with
  | VElem _ _ _ c => flat_map (byTag t) c
  | _ => []
  end.

(** ** Content store *)

(** A publish date, as the frontmatter key [date] gives it. *)
Module Date.
Record t : Type := {
  year : nat;
  month : nat;
  day : nat;
}.

(** [a] is not later than [b]. *)
Definition leb (a b : t) : bool :=
  ((year a <? year b) ||
   ((year a =? year b) &&
    ((month a <? month b) ||
     ((month a =? month b) && (day a <=? day b)))))%nat.
End Date.

(** One Markdown file of [content/blog], as the framework holds it.  The
    excerpt is derived from the body for a given prune length. *)
Record Post : Type := {
  post_slug : string;
  post_title : option string;
  post_date : Date.t;
  post_description : option string;
  post_tags : option (list string);
  post_html : string;
  post_excerpt : nat -> string;
  post_timeToRead : nat;
}.

(** ** What the templates import *)

Class Imports : Type := {
  (** [__PATH_PREFIX__], set by the framework at build time *)
  PATH_PREFIX : string;
  (** [rhythm] and [scale] of [../utils/typography] *)
  rhythm : Q -> string;
  scale : Q -> props;
  (** [primaryColor] of [../style] *)
  primaryColor : string;
  (** [formatReadingTime] of [../utils/helpers] *)
  formatReadingTime : nat -> string;
  (** [kebabCase] of lodash *)
  kebabCase : string -> string;
  (** the framework's [date(formatString: ...)] *)
  formatDate : string -> Date.t -> string;
}.

(** ** Data model *)

(** Site metadata, as [gatsby-config.js] declares it. *)
Module Site.
Record siteMetadata : Type := {
  title : string;
  author : string;
}.
End Site.

Definition siteMetadata : Site.siteMetadata :=
  {| Site.title := "Jan Hesters"; Site.author := "Jan Hesters" |}.

(** A node of a query result, with the fields the page queries select. *)
Record Frontmatter : Type := {
  date : string;
  title : option string;
  description : option string;
  tags : option (list string);
}.

Record Fields : Type := {
  slug : string;
}.

Record Node : Type := {
  excerpt : string;
  fields : Fields;
  timeToRead : nat;
  html : string;
  frontmatter : Frontmatter;
}.

Record Location : Type := {
  pathname : string;
}.

(** The result of an [allMarkdownRemark] selection of [totalCount] and
    [edges]; an edge is represented by its [node]. *)
Record Connection : Type := {
  totalCount : nat;
  edges : list Node;
}.

(** One entry of a [group] selection. *)
Module Group.
Record t : Type := {
  fieldValue : string;
  totalCount : nat;
}.
End Group.

(** The [data] prop of a template: [site.siteMetadata] and the query's root
    field ([allMarkdownRemark] or [markdownRemark]). *)
Record Data (R : Type) : Type := {
  site : Site.siteMetadata;
  remark : R;
}.
Arguments site {R} _.
Arguments remark {R} _.

(** The [pageContext] prop of the post template. *)
Record PageContext : Type := {
  ctx_slug : string;
  previous : option Node;
  next : option Node;
}.

Section Components.
Context {imports : Imports}.

(** *** The layout shell: [Layout] of src/components/layout.js *)

Definition rootPath : string := (PATH_PREFIX ++ "/")%string.

Definition Layout (location : Location) (title : string)
  (children : list vnode) : vnode :=
  let header :=
    if pathname location =? rootPath then
      VElem "h1" []
        (scale (3 # 4)%Q ++ [("marginBottom", "0"); ("marginTop", "0")])
        [VElem "Link" [("to", "/")]
           [("boxShadow", "none"); ("textDecoration", "none");
            ("color", "inherit")]
           [VText title]]
    else
      VElem "h3" []
        [("fontFamily", "Montserrat, sans-serif"); ("marginTop", "0");
         ("marginBottom", "0"); ("height", "42");
         ("lineHeight", "2.625rem")]
        [VElem "Link" [("to", "/")]
           [("boxShadow", "none"); ("textDecoration", "none");
            ("color", primaryColor)]
           [VText title]]
  in
  VElem "div" []
    [("marginLeft", "auto"); ("marginRight", "auto");
     ("maxWidth", rhythm (24 # 1)%Q);
     ("padding", (rhythm (3 # 2)%Q ++ " " ++ rhythm (3 # 4)%Q)%string)]
    (VElem "header" []
       [("display", "flex"); ("justifyContent", "space-between");
        ("alignItems", "center"); ("marginBottom", "2.625rem")]
       [header]
     :: children).

(** *** The post list item: [PostListItem]

    The [title] prop is optional: [titleProp] is [None] when the caller
    leaves it out, and its default is evaluated only then. *)

Definition PostListItem (node : Node) (titleProp : option string) : vnode :=
  let title :=
    match titleProp with
    | Some t => t
    | None => js_or (node.(frontmatter).(title)) (node.(fields).(slug))
    end in
  VElem "div" [("key", node.(fields).(slug))] []
    [VElem "h3" []
       [("fontFamily", "Montserrat, sans-serif");
        ("fontSize", rhythm (1 # 1)%Q);
        ("marginBottom", rhythm (1 # 4)%Q)]
       [VElem "Link" [("to", node.(fields).(slug)); ("rel", "bookmark")]
          [("boxShadow", "none")]
          [VText title]];
     VElem "small" [] []
       [VText (node.(frontmatter).(date));
        VText " ";
        VText (" â€¢ " ++ formatReadingTime (node.(timeToRead)))%string];
     VHtml "p" []
       (js_or (node.(frontmatter).(description)) (node.(excerpt)))].

(** *** The query layer

    The page queries are declarative: the framework evaluates them over
    the content store.  [allMarkdownRemark] filters, then sorts, then
    applies [limit]; [totalCount] counts the matching posts before
    [limit] applies, and [group] groups the edges left after it. *)

(** The fields the queries select of a post: the date formatted with
    [formatString: "MMMM DD, YYYY"], the excerpt pruned at
    [pruneLength]. *)
Definition select (pruneLength : nat) (p : Post) : Node :=
  {| excerpt := post_excerpt p pruneLength;
     fields := {| slug := post_slug p |};
     timeToRead := post_timeToRead p;
     html := post_html p;
     frontmatter :=
       {| date := formatDate "MMMM DD, YYYY" (post_date p);
          title := post_title p;
          description := post_description p;
          tags := post_tags p |} |}.

(** The prune length of [excerpt] when the query gives none. *)
Definition defaultPruneLength : nat := 140.

(** [filter: { frontmatter: { tags: { in: [$tag] } } }] *)
Definition tagsIn (tag : string) (p : Post) : bool :=
  match post_tags p with
  | Some ts => existsb (String.eqb tag) ts
  | None => false
  end.

(** [sort: { fields: [frontmatter___date], order: DESC }]; posts of the
    same date keep the order of the store. *)
Fixpoint insertByDateDesc (p : Post) (l : list Post) : list Post :=
  match l with
  | [] => [p]
  | q :: t =>
      if Date.leb (post_date q) (post_date p) then p :: l
      else q :: insertByDateDesc p t
  end.

Definition sortByDateDesc (l : list Post) : list Post :=
  fold_right insertByDateDesc [] l.

Definition applyLimit {A : Type} (limit : option nat) (l : list A)
  : list A :=
  match limit with
  | Some n => firstn n l
  | None => l
  end.

Definition allMarkdownRemark (limit : option nat) (sortDateDesc : bool)
  (filterTag : option string) (store : list Post) : Connection :=
  let matched :=
    match filterTag with
    | Some tag => filter (tagsIn tag) store
    | None => store
    end in
  let sorted := if sortDateDesc then sortByDateDesc matched else matched in
  {| totalCount := length sorted;
     edges := map (select defaultPruneLength) (applyLimit limit sorted) |}.

(** [group(field: frontmatter___tags) { fieldValue totalCount }]: one
    entry per distinct tag of the connection's edges, in sorted order, with
    the number of those edges that carry the tag (the count of a tag is
    the count of posts carrying it). *)
Definition carries (tag : string) (n : Node) : bool :=
  match n.(frontmatter).(tags) with
  | Some ts => existsb (String.eqb tag) ts
  | None => false
  end.

Definition group (c : Connection) : list Group.t :=
  map (fun v =>
         {| Group.fieldValue := v;
            Group.totalCount := length (filter (carries v) (edges c)) |})
      (js_sort
         (nodup string_dec
            (flat_map (fun n => js_or_nil (n.(frontmatter).(tags)))
               (edges c)))).

(** [pageQuery] of src/templates/tags.js *)
Definition Tags_pageQuery (tag : string) (store : list Post)
  : Data Connection :=
  {| site := siteMetadata;
     remark := allMarkdownRemark (Some 2000) true (Some tag) store |}.

(** [pageQuery] of the blog index *)
Definition BlogIndex_pageQuery (store : list Post) : Data Connection :=
  {| site := siteMetadata;
     remark := allMarkdownRemark None true None store |}.

(** [pageQuery] of the tags index *)
Definition TagsPage_pageQuery (store : list Post) : Data (list Group.t) :=
  {| site := siteMetadata;
     remark := group (allMarkdownRemark (Some 2000) false None store) |}.

(** [pageQuery] of the post template, [BlogPostBySlug]; the root field is
    [null] when no post has the slug. *)
Definition BlogPost_pageQuery (slug : string) (store : list Post)
  : Data (option Node) :=
  {| site := siteMetadata;
     remark :=
       option_map (select 160)
         (find (fun p => post_slug p =? slug) store) |}.

(** *** Templates

    [SEO], [Bio], [SignUp] and [Footer] are rendered by other components;
    a template's output holds them by name, with the props it passes. *)

(** The link back to the home page that the tag and post templates put
    in their footer. *)
Definition footerHome : vnode :=
  VElem "h3" []
    [("fontFamily", "Montserrat, sans-serif");
     ("marginTop", rhythm (1 # 4)%Q)]
    [VElem "Link" [("to", "/")]
       [("boxShadow", "none"); ("textDecoration", "none");
        ("color", primaryColor)]
       [VText "Jan Hesters"]].

Definition navListStyle : props :=
  [("display", "flex"); ("flexWrap", "wrap");
   ("justifyContent", "space-between"); ("listStyle", "none");
   ("padding", "0")].

(** The tag page: [Tags] of src/templates/tags.js *)
Definition tagHeader (totalCount : nat) (tag : string) : string :=
  (numToString totalCount ++ " post"
     ++ (if (totalCount =? 1)%nat then EmptyString else "s")
     ++ " tagged with " ++ dquote ++ tag ++ dquote)%string.

Definition Tags (tag : string) (data : Data Connection)
  (location : Location) : vnode :=
  let posts := edges (remark data) in
  let totalCount := totalCount (remark data) in
  let siteTitle := Site.title (site data) in
  Layout location siteTitle
    [VComp "SEO"
       [("title", ("All posts tagged " ++ dquote ++ tag ++ dquote)%string)];
     VElem "h1" [] [] [VText (tagHeader totalCount tag)];
     VElem "main" [] [] (map (fun node => PostListItem node None) posts);
     VElem "footer" [] []
       [footerHome;
        VComp "Bio" [];
        VElem "nav" [] []
          [VElem "ul" [] navListStyle
             [VElem "li" [] []
                [VElem "Link" [("to", "/tags"); ("rel", "index")] []
                   [VText "All tags"]]]]]].

(** The blog index: [BlogIndex] *)
Definition BlogIndex (data : Data Connection) (location : Location)
  : vnode :=
  let siteTitle := Site.title (site data) in
  let posts := edges (remark data) in
  Layout location siteTitle
    [VComp "SEO" [("title", "All posts")];
     VElem "aside" [] [] [VComp "Bio" []];
     VElem "main" [] [] (map (fun node => PostListItem node None) posts);
     VComp "Footer" []].

(** The tags index: [TagsPage] *)
Definition tagRoute (tag : string) : string :=
  ("/tags/" ++ kebabCase tag ++ "/")%string.

Definition TagsPage (data : Data (list Group.t)) (location : Location)
  : vnode :=
  let group := remark data in
  let title := Site.title (site data) in
  Layout location title
    [VComp "SEO" [("title", "All tags")];
     VElem "div" [] []
       [VElem "h1" [] [] [VText "All Tags"];
        VElem "ul" [] []
          (map (fun tag =>
                  VElem "li" [("key", Group.fieldValue tag)] []
                    [VElem "Link"
                       [("to", tagRoute (Group.fieldValue tag))] []
                       [VText (Group.fieldValue tag);
                        VText " (";
                        VText (numToString (Group.totalCount tag));
                        VText ")"]])
             group)]].

(** The post template: [BlogPostTemplate], in its revision with tags *)
Definition systemFont : string :=
  ("system-ui, -apple-system, BlinkMacSystemFont, "
     ++ dquote ++ "Segoe UI" ++ dquote ++ "," ++ newline ++ "    "
     ++ dquote ++ "Roboto" ++ dquote ++ ", "
     ++ dquote ++ "Oxygen" ++ dquote ++ ", "
     ++ dquote ++ "Ubuntu" ++ dquote ++ ", "
     ++ dquote ++ "Cantarell" ++ dquote ++ ", "
     ++ dquote ++ "Fira Sans" ++ dquote ++ "," ++ newline ++ "    "
     ++ dquote ++ "Droid Sans" ++ dquote ++ ", "
     ++ dquote ++ "Helvetica Neue" ++ dquote ++ ", sans-serif")%string.

(** The tag chips: [tags.sort().map((tag, index) => ...)].  [sort] works
    in place, so [tags.length] is the length of the sorted array. *)
Definition tagChips (tags : list string) : list vnode :=
  let tags := js_sort tags in
  mapi (fun tag index =>
          VElem "li" [("key", tag)] [("marginBottom", "0")]
            [VElem "Link" [("to", tagRoute tag)] [] [VText tag];
             VText (if (index =? length tags - 1)%nat then EmptyString
                    else ("," ++ nbsp)%string)])
       tags.

(** The previous and next links of a post page; both revisions of the
    post template render them so. *)
Definition postNav (previous next : option Node) : vnode :=
  VElem "nav" [] []
    [VElem "ul" [] navListStyle
       [VElem "li" [] []
          match previous with
          | Some previous =>
              [VElem "Link"
                 [("to", previous.(fields).(slug)); ("rel", "prev")] []
                 (VText "← " :: jsx_text (previous.(frontmatter).(title)))]
          | None => []
          end;
        VElem "li" [] []
          match next with
          | Some next =>
              [VElem "Link"
                 [("to", next.(fields).(slug)); ("rel", "next")] []
                 (jsx_text (next.(frontmatter).(title)) ++ [VText " →"])]
          | None => []
          end]].

Definition BlogPostTemplate (data : Data Node) (pageContext : PageContext)
  (location : Location) : vnode :=
  let post := remark data in
  let siteTitle := Site.title (site data) in
  let tags := js_or_nil (post.(frontmatter).(tags)) in
  Layout location siteTitle
    [VComp "SEO"
       (jsx_prop "title" (post.(frontmatter).(title))
        ++ [("description",
             js_or (post.(frontmatter).(description)) (post.(excerpt)));
            ("slug", post.(fields).(slug))]);
     VElem "main" [] []
       [VElem "article" [] []
          [VElem "header" [] []
             [VElem "h1" [] [] (jsx_text (post.(frontmatter).(title)));
              VElem "p" []
                (scale (-1 # 5)%Q
                 ++ [("display", "block"); ("marginBottom", "0");
                     ("marginTop", rhythm (-4 # 5)%Q)])
                [VText (post.(frontmatter).(date));
                 VText (" • "
                          ++ formatReadingTime (post.(timeToRead)))%string];
              VElem "ul" []
                [("display", "flex"); ("flexWrap", "wrap");
                 ("justifyContent", "flex-start"); ("listStyle", "none");
                 ("padding", "0"); ("marginLeft", "0")]
                (tagChips tags)];
           VHtml "div" [] (post.(html))]];
     VElem "footer" [] []
       [VElem "div" []
          [("margin", "90px 0 40px 0"); ("fontFamily", systemFont)]
          [VComp "SignUp" []];
        footerHome;
        VComp "Bio" [];
        postNav (previous pageContext) (next pageContext)]].

(** *** Page creation

    Modelled from the spec: gatsby-node.js, which creates one page per
    post and hands it its previous and next post, is not available.  The
    spec's data model: the navigation edge of a post is
    the chronologically previous and next post, computed from the single
    date-descending sequence of all posts; in the spec's scenario of
    posts A, B, C in date order, the page of B shows previous = A and
    next = C.  So [previous] is the post that follows in the
    date-descending sequence and [next] the one that precedes. *)
Definition createPostPages (store : list Post) : list PageContext :=
  let posts := sortByDateDesc store in
  mapi (fun post index =>
          {| ctx_slug := post_slug post;
             previous :=
               option_map (select defaultPruneLength)
                 (nth_error posts (S index));
             next :=
               match index with
               | 0 => None
               | S i =>
                   option_map (select defaultPruneLength)
                     (nth_error posts i)
               end |})
       posts.

(** *** Earlier revisions of the templates *)

(** The blog index before [PostListItem] was split off: the list item is
    written out in the callback of [posts.map].  The two revisions of this
    form are the same code but for the bytes of the bullet in the byline,
    which is the parameter [bullet] here. *)
Definition BlogIndexInline (bullet : string) (data : Data Connection)
  (location : Location) : vnode :=
  let siteTitle := Site.title (site data) in
  let posts := edges (remark data) in
  Layout location siteTitle
    [VComp "SEO" [("title", "All posts")];
     VElem "aside" [] [] [VComp "Bio" []];
     VElem "main" [] []
       (map (fun node =>
               let title :=
                 js_or (node.(frontmatter).(title)) (node.(fields).(slug)) in
               VElem "div" [("key", node.(fields).(slug))] []
                 [VElem "h3" []
                    [("fontFamily", "Montserrat, sans-serif");
                     ("fontSize", rhythm (1 # 1)%Q);
                     ("marginBottom", rhythm (1 # 4)%Q)]
                    [VElem "Link"
                       [("to", node.(fields).(slug)); ("rel", "bookmark")]
                       [("boxShadow", "none")]
                       [VText title]];
                  VElem "small" [] []
                    [VText (node.(frontmatter).(date));
                     VText " ";
                     VText (bullet
                              ++ formatReadingTime (node.(timeToRead)))%string];
                  VHtml "p" []
                    (js_or (node.(frontmatter).(description))
                       (node.(excerpt)))])
          posts);
     VComp "Footer" []].

(** The revision whose byline holds the bullet character, and the one
    whose byline holds its mis-decoded bytes. *)
Definition BlogIndexBullet : Data Connection -> Location -> vnode :=
  BlogIndexInline " • ".

Definition BlogIndexMisdecoded : Data Connection -> Location -> vnode :=
  BlogIndexInline " â€¢ ".

(** The post template before tags were added to it: its query selects no
    tags and it renders no chips. *)
Definition BlogPostTemplateUntagged (data : Data Node)
  (pageContext : PageContext) (location : Location) : vnode :=
  let post := remark data in
  let siteTitle := Site.title (site data) in
  Layout location siteTitle
    [VComp "SEO"
       (jsx_prop "title" (post.(frontmatter).(title))
        ++ [("description",
             js_or (post.(frontmatter).(description)) (post.(excerpt)));
            ("slug", post.(fields).(slug))]);
     VElem "main" [] []
       [VElem "article" [] []
          [VElem "header" [] []
             [VElem "h1" [] [] (jsx_text (post.(frontmatter).(title)));
              VElem "p" []
                (scale (-1 # 5)%Q
                 ++ [("display", "block");
                     ("marginBottom", rhythm (1 # 1)%Q);
                     ("marginTop", rhythm (-4 # 5)%Q)])
                [VText (post.(frontmatter).(date));
                 VText (" • "
                          ++ formatReadingTime (post.(timeToRead)))%string]];
           VHtml "div" [] (post.(html))]];
     VElem "footer" [] []
       [VElem "hr" [] [("marginBottom", rhythm (1 # 1)%Q)] [];
        VElem "div" []
          [("margin", "90px 0 40px 0"); ("fontFamily", systemFont)]
          [VComp "SignUp" []];
        VElem "h3" []
          [("fontFamily", "Montserrat, sans-serif");
           ("marginTop", rhythm (1 # 4)%Q)]
          [VElem "Link" [("to", "/")]
             [("boxShadow", "none"); ("textDecoration", "none");
              ("color", primaryColor)]
             [VText "Geromekevin"]];
        VComp "Bio" [];
        postNav (previous pageContext) (next pageContext)]].

(** *** What rendering leaves behind

    [tags.sort()] sorts in place: when [post.frontmatter.tags] is an array,
    [tags] is that very array, and after [render] the [data] prop holds it
    sorted.  When it is [null], the array sorted is the fresh [[]]. *)
Definition BlogPostTemplate_dataAfter (data : Data Node) : Data Node :=
  let post := remark data in
  {| site := site data;
     remark :=
       {| excerpt := post.(excerpt);
          fields := post.(fields);
          timeToRead := post.(timeToRead);
          html := post.(html);
          frontmatter :=
            {| date := post.(frontmatter).(date);
               title := post.(frontmatter).(title);
               description := post.(frontmatter).(description);
               tags := option_map js_sort (post.(frontmatter).(tags)) |} |} |}.

End Components.

(** ** Reading a rendered page *)

(** The first child of [v] named [t]. *)
Definition child (t : string) (v : vnode) : option vnode :=
  find (fun c => tagOf c =? t) (childrenOf v).

(** The node reached from [v] through children named along [path]. *)
Fixpoint descend (path : list string) (v : vnode) : option vnode :=
  match path with
  | [] => Some v
  | t :: rest =>
      match child t v with
      | Some c => descend rest c
      | None => None
      end
  end.

(** What a layout holds after its header. *)
Definition layoutContent (page : vnode) : list vnode :=
  tl (childrenOf page).

(** The heading a layout puts in its header. *)
Definition layoutHeading (page : vnode) : option vnode :=
  match descend ["header"] page with
  | Some h => hd_error (childrenOf h)
  | None => None
  end.

(** The title a post list item displays, and its body snippet. *)
Definition displayedTitle (item : vnode) : option string :=
  option_map textOf (descend ["h3"; "Link"] item).

Definition bodySnippet (item : vnode) : option string :=
  match descend ["p"] item with
  | Some p => innerHTML p
  | None => None
  end.

(** The description a page hands to [SEO]. *)
Definition seoDescription (page : vnode) : option string :=
  match descend ["SEO"] page with
  | Some seo => attr "description" seo
  | None => None
  end.

(** The heading of a page's content, and the items of its [main]. *)
Definition pageHeading (page : vnode) : option string :=
  option_map textOf (descend ["h1"] page).

Definition mainItems (page : vnode) : list vnode :=
  match descend ["main"] page with
  | Some m => childrenOf m
  | None => []
  end.

(** The link with the given [rel] in the footer navigation of a page. *)
Definition navLink (rel : string) (page : vnode) : option vnode :=
  match descend ["footer"; "nav"] page with
  | Some nav =>
      find (fun l =>
              match attr "rel" l with
              | Some r => r =? rel
              | None => false
              end)
           (byTag "Link" nav)
  | None => None
  end.

(** The tag chips of a post page, and the entries of the tags index. *)
Definition chipsOf (page : vnode) : list vnode :=
  match descend ["main"; "article"; "header"; "ul"] page with
  | Some ul => childrenOf ul
  | None => []
  end.

Definition tagEntries (page : vnode) : list vnode :=
  match descend ["div"; "ul"] page with
  | Some ul => childrenOf ul
  | None => []
  end.

(** ** Vocabulary of the specification *)

(** The tag list of a post contains [tag]: an exact match of strings. *)
Definition carriesTag (tag : string) (p : Post) : Prop :=
  exists ts, post_tags p = Some ts /\ In tag ts.

Definition carriesTag_dec (tag : string) (p : Post)
  : {carriesTag tag p} + {~ carriesTag tag p}.
Proof.
  unfold carriesTag.
  destruct (post_tags p) as [ts|].
  - destruct (in_dec string_dec tag ts) as [Hin|Hout].
    + left. exists ts. split; [reflexivity | exact Hin].
    + right. intros [ts' [Heq Hin]]. injection Heq as <-. exact (Hout Hin).
  - right. intros [ts' [Heq _]]. discriminate Heq.
Defined.

(** The number of posts of [store] that carry [tag]. *)
Definition taggedCount (tag : string) (store : list Post) : nat :=
  length (filter (fun p => if carriesTag_dec tag p then true else false) store).

(** [p] is at least as recent as [q]. *)
Definition newerOrSame (p q : Post) : Prop :=
  Date.leb (post_date q) (post_date p) = true.

(** The neighbours of the [i]-th post in a date-descending sequence: the
    next older post follows it, the next newer one precedes it. *)
Definition adjacentOlder (posts : list Post) (i : nat) : option Post :=
  nth_error posts (S i).

Definition adjacentNewer (posts : list Post) (i : nat) : option Post :=
  match i with
  | 0 => None
  | S j => nth_error posts j
  end.

(** [a] comes no later than [b] in the order of [Array.prototype.sort]. *)
Definition alphabetical (a b : string) : Prop :=
  String.leb a b = true.

(** ** Example data *)

(** An instance of the imports to evaluate the templates with: no path
    prefix, and [kebabCase] as it acts on lower-case single words. *)
Definition exampleImports : Imports :=
  {| PATH_PREFIX := EmptyString;
     rhythm := fun _ => "1rem";
     scale := fun _ => [("fontSize", "1rem"); ("lineHeight", "1.75rem")];
     primaryColor := "#82AAFF";
     formatReadingTime := fun minutes => (numToString minutes ++ " min read")%string;
     kebabCase := fun tag => tag;
     formatDate := fun _ d =>
       (numToString (Date.year d) ++ "-" ++ numToString (Date.month d)
          ++ "-" ++ numToString (Date.day d))%string |}.

Definition examplePost (name : string) (month : nat) (tags : list string)
  : Post :=
  {| post_slug := ("/" ++ name ++ "/")%string;
     post_title := Some name;
     post_date := {| Date.year := 2019; Date.month := month; Date.day := 1 |};
     post_description := None;
     post_tags := Some tags;
     post_html := ("<p>" ++ name ++ "</p>")%string;
     post_excerpt := fun _ => name;
     post_timeToRead := 1 |}.

(** The spec's scenario: A (2019-01-01, tags x), B (2019-02-01, tags x and
    y), C (2019-03-01, tags y). *)
Definition postA : Post := examplePost "A" 1 ["x"].
Definition postB : Post := examplePost "B" 2 ["x"; "y"].
Definition postC : Post := examplePost "C" 3 ["y"].

Definition scenario : list Post := [postA; postB; postC].

(** The page of B in the scenario, as the post template receives it. *)
Definition dataB : Data Node :=
  {| site := siteMetadata;
     remark := select (imports := exampleImports) 160 postB |}.

Definition contextB : PageContext :=
  {| ctx_slug := "/B/";
     previous :=
       Some (select (imports := exampleImports) defaultPruneLength postA);
     next :=
       Some (select (imports := exampleImports) defaultPruneLength postC) |}.

(** A post whose title and description are present and empty. *)
Definition blankPost : Post :=
  {| post_slug := "/blank/";
     post_title := Some EmptyString;
     post_date := {| Date.year := 2019; Date.month := 4; Date.day := 1 |};
     post_description := Some EmptyString;
     post_tags := None;
     post_html := "<p>Body of the post.</p>";
     post_excerpt := fun _ => "Body of the post.";
     post_timeToRead := 1 |}.

Definition blankNode : Node :=
  select (imports := exampleImports) defaultPruneLength blankPost.

Definition blankData : Data Node :=
  {| site := siteMetadata; remark := blankNode |}.

Definition blankContext : PageContext :=
  {| ctx_slug := "/blank/"; previous := None; next := None |}.

(** A store of 2001 posts: 2000 untagged ones, then one tagged [late]. *)
Definition untaggedPost (i : nat) : Post :=
  {| post_slug := ("/post-" ++ numToString i ++ "/")%string;
     post_title := Some ("Post " ++ numToString i)%string;
     post_date := {| Date.year := 2019; Date.month := 5; Date.day := 1 |};
     post_description := None;
     post_tags := None;
     post_html := EmptyString;
     post_excerpt := fun _ => EmptyString;
     post_timeToRead := 1 |}.

Definition bigStore : list Post :=
  map untaggedPost (seq 0 2000) ++ [examplePost "late" 6 ["late"]].

Definition homeLocation : Location := {| pathname := "/" |}.
Definition postLocation : Location := {| pathname := "/B/" |}.

(** The same imports for a site served under the path prefix [/blog]. *)
Definition prefixedImports : Imports :=
  {| PATH_PREFIX := "/blog";
     rhythm := rhythm (Imports := exampleImports);
     scale := scale (Imports := exampleImports);
     primaryColor := primaryColor (Imports := exampleImports);
     formatReadingTime := formatReadingTime (Imports := exampleImports);
     kebabCase := kebabCase (Imports := exampleImports);
     formatDate := formatDate (Imports := exampleImports) |}.

Definition nodeA : Node :=
  select (imports := exampleImports) defaultPruneLength postA.

Definition dataA : Data Node :=
  {| site := siteMetadata;
     remark := select (imports := exampleImports) 160 postA |}.

(** * Properties *)

(** ** JavaScript values *)

Lemma js_or_truthy (a : option string) (b s : string) :
  a = Some s -> s <> EmptyString -> js_or a b = s.
Proof.
  intros -> Hs. unfold js_or, truthy.
  destruct (String.eqb_spec s EmptyString) as [He|_]; [contradiction | reflexivity].
Qed.

Lemma js_or_empty (b : string) : js_or (Some EmptyString) b = b.
Proof. reflexivity. Qed.

Lemma js_or_null (b : string) : js_or None b = b.
Proof. reflexivity. Qed.

(** [a || b] by cases on [a]. *)
Lemma js_or_cases (a : option string) (b : string) :
  js_or a b =
  match a with
  | Some s => if s =? EmptyString then b else s
  | None => b
  end.
Proof.
  destruct a as [s|]; [|reflexivity].
  unfold js_or, truthy. destruct (s =? EmptyString); reflexivity.
Qed.

Section PostListItemProperties.
Context {imports : Imports}.

Lemma PostListItem_displayedTitle (node : Node) (titleProp : option string) :
  displayedTitle (PostListItem node titleProp) =
  Some match titleProp with
       | Some t => t
       | None => js_or (node.(frontmatter).(title)) (node.(fields).(slug))
       end.
Proof.
  unfold displayedTitle, PostListItem. cbn.
  destruct titleProp; reflexivity.
Qed.

Lemma PostListItem_bodySnippet (node : Node) (titleProp : option string) :
  bodySnippet (PostListItem node titleProp) =
  Some (js_or (node.(frontmatter).(description)) (node.(excerpt))).
Proof. reflexivity. Qed.

End PostListItemProperties.

Section PostPageProperties.
Context {imports : Imports}.

Lemma BlogPostTemplate_seoDescription (data : Data Node)
  (pageContext : PageContext) (location : Location) :
  seoDescription (BlogPostTemplate data pageContext location) =
  Some (js_or ((remark data).(frontmatter).(description))
          ((remark data).(excerpt))).
Proof.
  unfold seoDescription, BlogPostTemplate, Layout. cbn.
  destruct ((remark data).(frontmatter).(title)); reflexivity.
Qed.

Lemma BlogPostTemplate_chipsOf (data : Data Node)
  (pageContext : PageContext) (location : Location) :
  chipsOf (BlogPostTemplate data pageContext location) =
  tagChips (js_or_nil ((remark data).(frontmatter).(tags))).
Proof. reflexivity. Qed.

Lemma BlogPostTemplate_nav (data : Data Node)
  (pageContext : PageContext) (location : Location) :
  descend ["footer"; "nav"] (BlogPostTemplate data pageContext location) =
  Some (postNav (previous pageContext) (next pageContext)).
Proof. reflexivity. Qed.

End PostPageProperties.

(** ** The order of strings and [Array.prototype.sort] *)

Lemma string_leb_trans (s1 s2 s3 : string) :
  String.leb s1 s2 = true -> String.leb s2 s3 = true -> String.leb s1 s3 = true.
Proof.
  unfold String.leb. revert s2 s3.
  induction s1 as [|a s1 IH]; intros [|b s2] [|c s3]; cbn; try congruence.
  unfold Ascii.compare.
  destruct (N.compare_spec (N_of_ascii a) (N_of_ascii b)) as [Hab|Hab|Hab];
    destruct (N.compare_spec (N_of_ascii b) (N_of_ascii c)) as [Hbc|Hbc|Hbc];
    destruct (N.compare_spec (N_of_ascii a) (N_of_ascii c)) as [Hac|Hac|Hac];
    try congruence; try lia.
  apply IH.
Qed.

Lemma sort_insert_perm (x : string) (l : list string) :
  Permutation (sort_insert x l) (x :: l).
Proof.
  induction l as [|h t IH]; cbn.
  - apply Permutation_refl.
  - destruct (String.leb x h).
    + apply Permutation_refl.
    + rewrite IH. apply perm_swap.
Qed.

Lemma js_sort_perm (l : list string) : Permutation (js_sort l) l.
Proof.
  induction l as [|x l IH]; cbn.
  - apply perm_nil.
  - rewrite sort_insert_perm. now apply perm_skip.
Qed.

Lemma sort_insert_sorted (x : string) (l : list string) :
  Sorted alphabetical l -> Sorted alphabetical (sort_insert x l).
Proof.
  induction l as [|h t IH]; cbn; intros Hs.
  - repeat constructor.
  - destruct (String.leb x h) eqn:Hxh.
    + constructor; [exact Hs | constructor; exact Hxh].
    + inversion Hs as [|? ? Ht Hhd]; subst.
      constructor; [now apply IH|].
      assert (Hhx : alphabetical h x).
      { destruct (String.leb_total x h) as [H|H]; [congruence | exact H]. }
      destruct t as [|h' t']; cbn.
      * constructor. exact Hhx.
      * destruct (String.leb x h'); constructor; [exact Hhx|].
        now inversion Hhd.
  Qed.

Lemma js_sort_sorted (l : list string) : StronglySorted alphabetical (js_sort l).
Proof.
  apply Sorted_StronglySorted.
  - intros a b c. apply string_leb_trans.
  - induction l as [|x l IH]; cbn; [constructor | now apply sort_insert_sorted].
Qed.

Lemma js_sort_length (l : list string) : length (js_sort l) = length l.
Proof. apply Permutation_length, js_sort_perm. Qed.

Lemma js_sort_In (x : string) (l : list string) : In x (js_sort l) <-> In x l.
Proof.
  split; apply Permutation_in; [|symmetry]; apply js_sort_perm.
Qed.

(** ** Lists *)

Lemma mapi_from_nth_error {A B : Type} (f : A -> nat -> B) (l : list A)
  (k i : nat) :
  nth_error (mapi_from k f l) i =
  option_map (fun x => f x (k + i)) (nth_error l i).
Proof.
  revert k i. induction l as [|x l IH]; intros k [|i]; cbn; try reflexivity.
  - now rewrite Nat.add_0_r.
  - rewrite IH. now rewrite Nat.add_succ_r.
Qed.

Lemma mapi_nth_error {A B : Type} (f : A -> nat -> B) (l : list A) (i : nat) :
  nth_error (mapi f l) i = option_map (fun x => f x i) (nth_error l i).
Proof. unfold mapi. now rewrite mapi_from_nth_error. Qed.

Lemma mapi_from_length {A B : Type} (f : A -> nat -> B) (l : list A) (k : nat) :
  length (mapi_from k f l) = length l.
Proof. revert k. induction l; intros k; cbn; [reflexivity | now rewrite IHl]. Qed.

Lemma mapi_length {A B : Type} (f : A -> nat -> B) (l : list A) :
  length (mapi f l) = length l.
Proof. apply mapi_from_length. Qed.

(** ** The date order and the date-descending sort *)

Lemma Date_leb_total (a b : Date.t) :
  Date.leb a b = true \/ Date.leb b a = true.
Proof.
  unfold Date.leb.
  destruct (Nat.ltb_spec (Date.year a) (Date.year b)),
    (Nat.ltb_spec (Date.year b) (Date.year a)),
    (Nat.eqb_spec (Date.year a) (Date.year b)),
    (Nat.eqb_spec (Date.year b) (Date.year a)),
    (Nat.ltb_spec (Date.month a) (Date.month b)),
    (Nat.ltb_spec (Date.month b) (Date.month a)),
    (Nat.eqb_spec (Date.month a) (Date.month b)),
    (Nat.eqb_spec (Date.month b) (Date.month a)),
    (Nat.leb_spec (Date.day a) (Date.day b)),
    (Nat.leb_spec (Date.day b) (Date.day a)); cbn; auto; lia.
Qed.

Lemma Date_leb_trans (a b c : Date.t) :
  Date.leb a b = true -> Date.leb b c = true -> Date.leb a c = true.
Proof.
  unfold Date.leb.
  rewrite !orb_true_iff, !andb_true_iff, !orb_true_iff, !andb_true_iff,
    !Nat.ltb_lt, !Nat.eqb_eq, !Nat.leb_le.
  lia.
Qed.

Lemma newerOrSame_trans (p q r : Post) :
  newerOrSame p q -> newerOrSame q r -> newerOrSame p r.
Proof. unfold newerOrSame. intros H1 H2. exact (Date_leb_trans _ _ _ H2 H1). Qed.

Lemma insertByDateDesc_perm (p : Post) (l : list Post) :
  Permutation (insertByDateDesc p l) (p :: l).
Proof.
  induction l as [|q t IH]; cbn.
  - apply Permutation_refl.
  - destruct (Date.leb (post_date q) (post_date p)).
    + apply Permutation_refl.
    + rewrite IH. apply perm_swap.
Qed.

Lemma sortByDateDesc_perm (l : list Post) : Permutation (sortByDateDesc l) l.
Proof.
  induction l as [|p l IH]; cbn.
  - apply perm_nil.
  - rewrite insertByDateDesc_perm. now apply perm_skip.
Qed.

Lemma sortByDateDesc_length (l : list Post) :
  length (sortByDateDesc l) = length l.
Proof. apply Permutation_length, sortByDateDesc_perm. Qed.

Lemma insertByDateDesc_sorted (p : Post) (l : list Post) :
  Sorted newerOrSame l -> Sorted newerOrSame (insertByDateDesc p l).
Proof.
  induction l as [|q t IH]; cbn; intros Hs.
  - repeat constructor.
  - destruct (Date.leb (post_date q) (post_date p)) eqn:Hqp.
    + constructor; [exact Hs | constructor; exact Hqp].
    + inversion Hs as [|? ? Ht Hhd]; subst.
      constructor; [now apply IH|].
      assert (Hpq : newerOrSame q p).
      { destruct (Date_leb_total (post_date q) (post_date p)) as [H|H];
          [congruence | exact H]. }
      destruct t as [|q' t']; cbn.
      * constructor. exact Hpq.
      * destruct (Date.leb (post_date q') (post_date p)); constructor;
          [exact Hpq|].
        now inversion Hhd.
Qed.

Lemma sortByDateDesc_sorted (l : list Post) :
  StronglySorted newerOrSame (sortByDateDesc l).
Proof.
  apply Sorted_StronglySorted.
  - intros p q r. apply newerOrSame_trans.
  - induction l as [|p l IH]; cbn;
      [constructor | now apply insertByDateDesc_sorted].
Qed.

(** Two sorted arrangements of the same posts are equal when no two of the
    posts are equally recent. *)
Lemma sorted_perm_unique (l1 l2 : list Post) :
  StronglySorted newerOrSame l1 -> StronglySorted newerOrSame l2 ->
  Permutation l1 l2 ->
  (forall p q, In p l1 -> In q l1 -> newerOrSame p q -> newerOrSame q p -> p = q) ->
  l1 = l2.
Proof.
  revert l2. induction l1 as [|p l1 IH]; intros l2 Hs1 Hs2 Hperm Hanti.
  - now apply Permutation_nil in Hperm.
  - destruct l2 as [|q l2].
    + symmetry in Hperm. now apply Permutation_nil in Hperm.
    + apply StronglySorted_inv in Hs1 as [Hs1 Hp].
      apply StronglySorted_inv in Hs2 as [Hs2 Hq].
      rewrite Forall_forall in Hp, Hq.
      assert (Hpq : p = q).
      { assert (Hin_q : In q (p :: l1))
          by (apply (Permutation_in q (Permutation_sym Hperm)); now left).
        assert (Hin_p : In p (q :: l2))
          by (apply (Permutation_in p Hperm); now left).
        destruct Hin_q as [->|Hin_q]; [reflexivity|].
        destruct Hin_p as [->|Hin_p]; [reflexivity|].
        apply Hanti; [now left | now right | now apply Hp | now apply Hq]. }
      subst q. f_equal.
      apply IH; [exact Hs1 | exact Hs2 | now apply Permutation_cons_inv in Hperm |].
      intros a b Ha Hb. apply Hanti; now right.
Qed.

(** ** The query layer *)

Lemma existsb_eqb_In (tag : string) (ts : list string) :
  existsb (String.eqb tag) ts = true <-> In tag ts.
Proof.
  rewrite existsb_exists. split.
  - intros [x [Hin Heq]]. apply String.eqb_eq in Heq. now subst.
  - intros Hin. exists tag. split; [exact Hin | apply String.eqb_refl].
Qed.

Lemma tagsIn_carriesTag (tag : string) (p : Post) :
  tagsIn tag p = true <-> carriesTag tag p.
Proof.
  unfold tagsIn, carriesTag. destruct (post_tags p) as [ts|].
  - rewrite existsb_eqb_In. split.
    + intros Hin. now exists ts.
    + intros [ts' [Heq Hin]]. now injection Heq as <-.
  - split; [discriminate | intros [ts' [Heq _]]; discriminate].
Qed.

Lemma filter_tagsIn (tag : string) (store : list Post) :
  filter (tagsIn tag) store =
  filter (fun p => if carriesTag_dec tag p then true else false) store.
Proof.
  apply filter_ext. intros p.
  destruct (carriesTag_dec tag p) as [Hc|Hc].
  - now apply tagsIn_carriesTag.
  - destruct (tagsIn tag p) eqn:Ht; [|reflexivity].
    now apply tagsIn_carriesTag in Ht.
Qed.

Section QueryProperties.
Context {imports : Imports}.

Lemma carries_select (tag : string) (pruneLength : nat) (p : Post) :
  carries tag (select pruneLength p) = tagsIn tag p.
Proof. reflexivity. Qed.

Lemma Tags_pageQuery_totalCount (tag : string) (store : list Post) :
  totalCount (remark (Tags_pageQuery tag store)) = taggedCount tag store.
Proof.
  cbn. rewrite sortByDateDesc_length, filter_tagsIn. reflexivity.
Qed.

Lemma Tags_pageQuery_edges (tag : string) (store : list Post) :
  edges (remark (Tags_pageQuery tag store)) =
  map (select defaultPruneLength)
    (firstn 2000 (sortByDateDesc (filter (tagsIn tag) store))).
Proof. reflexivity. Qed.

Lemma Tags_pageQuery_edges_length (tag : string) (store : list Post) :
  length (edges (remark (Tags_pageQuery tag store))) =
  Nat.min 2000 (taggedCount tag store).
Proof.
  rewrite Tags_pageQuery_edges, length_map, length_firstn,
    sortByDateDesc_length, filter_tagsIn.
  reflexivity.
Qed.

Lemma BlogIndex_pageQuery_edges (store : list Post) :
  edges (remark (BlogIndex_pageQuery store)) =
  map (select defaultPruneLength) (sortByDateDesc store).
Proof. reflexivity. Qed.

Lemma TagsPage_pageQuery_edges (store : list Post) :
  edges (allMarkdownRemark (Some 2000) false None store) =
  map (select defaultPruneLength) (firstn 2000 store).
Proof. reflexivity. Qed.

(** The distinct tags of a connection's edges. *)
Lemma group_fieldValue_NoDup (c : Connection) :
  NoDup (map Group.fieldValue (group c)).
Proof.
  unfold group. rewrite map_map. cbn. rewrite map_id.
  eapply Permutation_NoDup.
  - symmetry. apply js_sort_perm.
  - apply NoDup_nodup.
Qed.

Lemma group_fieldValue_In (c : Connection) (tag : string) :
  In tag (map Group.fieldValue (group c)) <->
  exists n, In n (edges c) /\ carries tag n = true.
Proof.
  unfold group. rewrite map_map. cbn. rewrite map_id.
  rewrite js_sort_In, nodup_In, in_flat_map.
  split; intros [n [Hn Htag]]; exists n; split; try exact Hn;
    unfold carries in *; destruct (n.(frontmatter).(tags)) as [ts|];
    cbn in *; try contradiction; try discriminate;
    now apply existsb_eqb_In.
Qed.

Lemma group_totalCount (c : Connection) (g : Group.t) :
  In g (group c) ->
  Group.totalCount g =
  length (filter (carries (Group.fieldValue g)) (edges c)).
Proof.
  unfold group. rewrite in_map_iff. intros [v [<- _]]. reflexivity.
Qed.

End QueryProperties.

(** ** Templates *)

Section TemplateProperties.
Context {imports : Imports}.

Lemma Layout_children (location : Location) (title : string)
  (children : list vnode) :
  layoutContent (Layout location title children) = children.
Proof. reflexivity. Qed.

Lemma Tags_pageHeading (tag : string) (data : Data Connection)
  (location : Location) :
  pageHeading (Tags tag data location) =
  Some (tagHeader (totalCount (remark data)) tag).
Proof. reflexivity. Qed.

Lemma Tags_mainItems (tag : string) (data : Data Connection)
  (location : Location) :
  mainItems (Tags tag data location) =
  map (fun node => PostListItem node None) (edges (remark data)).
Proof. reflexivity. Qed.

Lemma BlogIndex_mainItems (data : Data Connection) (location : Location) :
  mainItems (BlogIndex data location) =
  map (fun node => PostListItem node None) (edges (remark data)).
Proof. reflexivity. Qed.

Lemma TagsPage_tagEntries (data : Data (list Group.t))
  (location : Location) :
  tagEntries (TagsPage data location) =
  map (fun g =>
         VElem "li" [("key", Group.fieldValue g)] []
           [VElem "Link" [("to", tagRoute (Group.fieldValue g))] []
              [VText (Group.fieldValue g);
               VText " (";
               VText (numToString (Group.totalCount g));
               VText ")"]])
      (remark data).
Proof. reflexivity. Qed.

End TemplateProperties.

(** * The claims of the specification *)

(** Claim C1 as stated fails.  The frontmatter title of [blankPost] is
    present (it is the empty string), and the list item displays the slug
    where the claim has it display that title. *)
Lemma C1_present_empty_title_shows_slug :
  ~ (forall t, blankNode.(frontmatter).(title) = Some t ->
       displayedTitle (PostListItem (imports := exampleImports) blankNode None)
       = Some t).
Proof.
  intros H. specialize (H EmptyString eq_refl). discriminate H.
Qed.

(** Claim C1, amended.  For every post that the post-list-item component
    renders without an explicit title prop (as both templates render it),
    the displayed title equals the frontmatter title when that title is
    present and not the empty string, and equals the slug otherwise. *)
Theorem C1_list_item_title {imports : Imports} (node : Node) :
  displayedTitle (PostListItem node None) =
  Some match node.(frontmatter).(title) with
       | Some t => if t =? EmptyString then node.(fields).(slug) else t
       | None => node.(fields).(slug)
       end.
Proof.
  rewrite PostListItem_displayedTitle, js_or_cases. reflexivity.
Qed.

(** Claim C2 as stated fails.  The frontmatter description of [blankPost]
    is present (it is the empty string), and the list item shows the
    excerpt where the claim has it show that description. *)
Lemma C2_present_empty_description_shows_excerpt :
  ~ (forall d, blankNode.(frontmatter).(description) = Some d ->
       bodySnippet (PostListItem (imports := exampleImports) blankNode None)
       = Some d).
Proof.
  intros H. specialize (H EmptyString eq_refl). discriminate H.
Qed.

(** Claim C2, amended.  For every post rendered by the post-list-item
    component, the body snippet equals the frontmatter description when
    that description is present and not the empty string, and equals the
    auto-derived excerpt otherwise. *)
Theorem C2_list_item_snippet {imports : Imports} (node : Node)
  (titleProp : option string) :
  bodySnippet (PostListItem node titleProp) =
  Some match node.(frontmatter).(description) with
       | Some d => if d =? EmptyString then node.(excerpt) else d
       | None => node.(excerpt)
       end.
Proof.
  rewrite PostListItem_bodySnippet, js_or_cases. reflexivity.
Qed.

(** Claim C9.  When a post's frontmatter description is present and equal
    to the empty string, the body snippet of its list item and the
    description its post page hands to SEO are both the excerpt: the
    fallback tests the truthiness of the description, not its presence. *)
Theorem C9_empty_description_falls_back {imports : Imports}
  (data : Data Node) (pageContext : PageContext) (location : Location) :
  (remark data).(frontmatter).(description) = Some EmptyString ->
  bodySnippet (PostListItem (remark data) None)
  = Some ((remark data).(excerpt)) /\
  seoDescription (BlogPostTemplate data pageContext location)
  = Some ((remark data).(excerpt)).
Proof.
  intros Hd.
  rewrite PostListItem_bodySnippet, BlogPostTemplate_seoDescription, Hd.
  split; reflexivity.
Qed.

Lemma C9_empty_description_witness :
  bodySnippet (PostListItem (imports := exampleImports) blankNode None)
  = Some "Body of the post." /\
  seoDescription
    (BlogPostTemplate (imports := exampleImports) blankData blankContext
       postLocation)
  = Some "Body of the post.".
Proof.
  apply (C9_empty_description_falls_back (imports := exampleImports)
           blankData blankContext postLocation).
  reflexivity.
Defined.

(** Claim C3.  The count in the header of a tag page is the number of posts
    of the content store whose tag list contains the page's tag, where a
    tag list contains a tag when one of its entries is that very string;
    so a post tagged [X] is not counted on the page of [x]. *)
Theorem C3_tag_page_count {imports : Imports} (tag : string)
  (store : list Post) (location : Location) :
  totalCount (remark (Tags_pageQuery tag store)) = taggedCount tag store /\
  pageHeading (Tags tag (Tags_pageQuery tag store) location) =
  Some (numToString (taggedCount tag store) ++ " post"
          ++ (if (taggedCount tag store =? 1)%nat then EmptyString else "s")
          ++ " tagged with " ++ dquote ++ tag ++ dquote)%string /\
  pageHeading (Tags "x" (Tags_pageQuery "x" [examplePost "A" 1 ["X"]]) location) =
  Some ("0 posts tagged with " ++ dquote ++ "x" ++ dquote)%string.
Proof.
  split; [apply Tags_pageQuery_totalCount|].
  split; [|reflexivity].
  rewrite Tags_pageHeading, Tags_pageQuery_totalCount. reflexivity.
Qed.

(** Claim C10.  The tag page query returns at most 2000 posts (the first
    2000 of those carrying the tag, newest first), so a tag page lists at
    most 2000 posts however many carry the tag; and the tags index query
    reads only the first 2000 posts of the content store. *)
Theorem C10_queries_limited_to_2000 {imports : Imports} (tag : string)
  (store : list Post) (location : Location) :
  length (edges (remark (Tags_pageQuery tag store)))
  = Nat.min 2000 (taggedCount tag store) /\
  length (mainItems (Tags tag (Tags_pageQuery tag store) location)) <= 2000 /\
  length (edges (allMarkdownRemark (Some 2000) false None store)) <= 2000 /\
  TagsPage_pageQuery store = TagsPage_pageQuery (firstn 2000 store).
Proof.
  split; [apply Tags_pageQuery_edges_length|].
  split.
  { rewrite Tags_mainItems, length_map, Tags_pageQuery_edges_length.
    apply Nat.le_min_l. }
  split.
  { rewrite TagsPage_pageQuery_edges, length_map, length_firstn.
    apply Nat.le_min_l. }
  unfold TagsPage_pageQuery, group. f_equal.
  rewrite !TagsPage_pageQuery_edges, firstn_firstn, Nat.min_id.
  reflexivity.
Qed.

Section TagsIndexProperties.
Context {imports : Imports}.

Lemma carries_count (tag : string) (pruneLength : nat) (posts : list Post) :
  length (filter (carries tag) (map (select pruneLength) posts))
  = taggedCount tag posts.
Proof.
  unfold taggedCount. rewrite <- filter_tagsIn.
  induction posts as [|p posts IH]; [reflexivity|].
  cbn [map filter]. rewrite carries_select.
  destruct (tagsIn tag p); cbn [length]; now rewrite IH.
Qed.

Lemma carries_some (tag : string) (pruneLength : nat) (posts : list Post) :
  (exists n, In n (map (select pruneLength) posts) /\ carries tag n = true)
  <-> exists p, In p posts /\ carriesTag tag p.
Proof.
  split.
  - intros [n [Hn Hc]]. apply in_map_iff in Hn as [p [<- Hp]].
    exists p. split; [exact Hp|]. now apply tagsIn_carriesTag.
  - intros [p [Hp Hc]]. exists (select pruneLength p).
    split; [now apply in_map|]. now apply tagsIn_carriesTag.
Qed.

End TagsIndexProperties.

(** Claim C7 as stated fails.  In [bigStore] the tag [late] appears in the
    tag list of a post, the 2001st, and the tags index lists no tag at
    all: its query reads the first 2000 posts only. *)
Lemma C7_tag_beyond_limit_not_listed :
  (exists p, In p bigStore /\ carriesTag "late" p) /\
  tagEntries
    (TagsPage (imports := exampleImports)
       (TagsPage_pageQuery (imports := exampleImports) bigStore)
       homeLocation)
  = [].
Proof.
  split.
  - exists (examplePost "late" 6 ["late"]). split.
    + unfold bigStore. apply in_or_app. right. now left.
    + exists ["late"]. split; [reflexivity | now left].
  - vm_compute. reflexivity.
Qed.

(** Claim C7, amended.  The tags index page lists exactly the set of
    distinct tag values appearing across the tag lists of the posts its
    query reads, which are the first 2000 posts of the content store and so
    all posts when the store holds at most 2000; each entry shows the count
    of those posts carrying the tag and links to the tag's page via the
    kebab-cased tag name. *)
Theorem C7_tags_index {imports : Imports} (store : list Post)
  (location : Location) :
  (length store <= 2000 -> firstn 2000 store = store) /\
  exists listed : list string,
    NoDup listed /\
    (forall tag,
        In tag listed <->
        exists p, In p (firstn 2000 store) /\ carriesTag tag p) /\
    tagEntries (TagsPage (TagsPage_pageQuery store) location) =
    map (fun tag =>
           VElem "li" [("key", tag)] []
             [VElem "Link" [("to", ("/tags/" ++ kebabCase tag ++ "/")%string)] []
                [VText tag;
                 VText " (";
                 VText (numToString (taggedCount tag (firstn 2000 store)));
                 VText ")"]])
        listed.
Proof.
  split; [apply firstn_all2|].
  set (c := allMarkdownRemark (Some 2000) false None store).
  exists (map Group.fieldValue (group c)).
  split; [apply group_fieldValue_NoDup|].
  split.
  - intros tag. rewrite group_fieldValue_In.
    unfold c. rewrite TagsPage_pageQuery_edges. apply carries_some.
  - rewrite TagsPage_tagEntries, map_map. apply map_ext_in.
    intros g Hg. apply group_totalCount in Hg. rewrite Hg.
    unfold c. rewrite TagsPage_pageQuery_edges, carries_count.
    reflexivity.
Qed.

Lemma C7_tags_index_witness :
  firstn 2000 [postA; postB; postC] = [postA; postB; postC].
Proof.
  apply (proj1 (C7_tags_index (imports := exampleImports)
                  [postA; postB; postC] homeLocation)).
  cbn. lia.
Defined.

(** Claim C8.  Whatever the route path and the site title, the layout
    renders its header and then the child content unchanged.  On the home
    route the heading is an [h1] enlarged by [scale(0.75)] that shows the
    title; on every other path it is a compact [h3], 42 pixels high, whose
    content is a link to the home route showing the title. *)
Theorem C8_layout_title {imports : Imports} (location : Location)
  (title : string) (children : list vnode) :
  layoutContent (Layout location title children) = children /\
  (pathname location = rootPath ->
   exists heading,
     layoutHeading (Layout location title children) = Some heading /\
     tagOf heading = "h1" /\
     firstn (length (scale (3 # 4)%Q)) (styleOf heading) = scale (3 # 4)%Q /\
     textOf heading = title) /\
  (pathname location <> rootPath ->
   exists heading link,
     layoutHeading (Layout location title children) = Some heading /\
     tagOf heading = "h3" /\
     lookup "height" (styleOf heading) = Some "42" /\
     childrenOf heading = [link] /\
     tagOf link = "Link" /\
     attr "to" link = Some "/" /\
     textOf link = title).
Proof.
  split; [reflexivity|].
  unfold layoutHeading, Layout. cbn.
  destruct (String.eqb_spec (pathname location) rootPath) as [Heq|Hne].
  - split; [|intros Hne; contradiction].
    intros _. eexists. split; [reflexivity|].
    split; [reflexivity|]. split; [|reflexivity].
    cbn. rewrite firstn_app, Nat.sub_diag, firstn_all. cbn.
    now rewrite app_nil_r.
  - split; [intros Heq; contradiction|].
    intros _. do 2 eexists. repeat split; reflexivity.
Qed.

Lemma C8_layout_title_witness :
  (exists heading,
      layoutHeading
        (Layout (imports := exampleImports) homeLocation "Jan Hesters" [])
      = Some heading /\
      tagOf heading = "h1" /\
      firstn 2 (styleOf heading)
      = [("fontSize", "1rem"); ("lineHeight", "1.75rem")] /\
      textOf heading = "Jan Hesters") /\
  (exists heading link,
      layoutHeading
        (Layout (imports := exampleImports) postLocation "Jan Hesters" [])
      = Some heading /\
      tagOf heading = "h3" /\
      lookup "height" (styleOf heading) = Some "42" /\
      childrenOf heading = [link] /\
      tagOf link = "Link" /\
      attr "to" link = Some "/" /\
      textOf link = "Jan Hesters").
Proof.
  split.
  - apply (proj1 (proj2 (C8_layout_title (imports := exampleImports)
                           homeLocation "Jan Hesters" []))).
    reflexivity.
  - apply (proj2 (proj2 (C8_layout_title (imports := exampleImports)
                           postLocation "Jan Hesters" []))).
    discriminate.
Defined.

Section ChipProperties.
Context {imports : Imports}.

(** The [i]-th chip: a link to the tag's route, then the separator
    unless the chip is the last. *)
Lemma tagChips_nth_error (tags : list string) (i : nat) :
  nth_error (tagChips tags) i =
  option_map
    (fun tag =>
       VElem "li" [("key", tag)] [("marginBottom", "0")]
         [VElem "Link" [("to", ("/tags/" ++ kebabCase tag ++ "/")%string)]
            [] [VText tag];
          VText (if (S i =? length tags)%nat then EmptyString
                 else ("," ++ nbsp)%string)])
    (nth_error (js_sort tags) i).
Proof.
  unfold tagChips. rewrite mapi_nth_error.
  destruct (nth_error (js_sort tags) i) as [tag|] eqn:Hnth; [|reflexivity].
  assert (Hi : i < length tags).
  { rewrite <- js_sort_length. apply nth_error_Some. congruence. }
  cbn. rewrite js_sort_length.
  replace (i =? length tags - 1)%nat with (S i =? length tags)%nat;
    [reflexivity|].
  destruct (Nat.eqb_spec (S i) (length tags)),
    (Nat.eqb_spec i (length tags - 1)); try reflexivity; lia.
Qed.

Lemma tagChips_length (tags : list string) :
  length (tagChips tags) = length tags.
Proof. unfold tagChips. now rewrite mapi_length, js_sort_length. Qed.

End ChipProperties.


Section NavigationProperties.
Context {imports : Imports}.

Lemma navLink_prev (data : Data Node) (pageContext : PageContext)
  (location : Location) :
  option_map (attr "to")
    (navLink "prev" (BlogPostTemplate data pageContext location)) =
  option_map (fun n => Some (n.(fields).(slug))) (previous pageContext).
Proof.
  unfold navLink. rewrite BlogPostTemplate_nav.
  destruct (previous pageContext) as [p|], (next pageContext) as [n|];
    cbn; try reflexivity.
  all: destruct (n.(frontmatter).(title)); reflexivity.
Qed.

Lemma navLink_next (data : Data Node) (pageContext : PageContext)
  (location : Location) :
  option_map (attr "to")
    (navLink "next" (BlogPostTemplate data pageContext location)) =
  option_map (fun n => Some (n.(fields).(slug))) (next pageContext).
Proof.
  unfold navLink. rewrite BlogPostTemplate_nav.
  destruct (previous pageContext) as [p|], (next pageContext) as [n|];
    cbn; try reflexivity.
  all: try destruct (p.(frontmatter).(title));
    try destruct (n.(frontmatter).(title)); reflexivity.
Qed.

Lemma createPostPages_nth_error (store : list Post) (i : nat) :
  nth_error (createPostPages store) i =
  option_map
    (fun post =>
       {| ctx_slug := post_slug post;
          previous :=
            option_map (select defaultPruneLength)
              (adjacentOlder (sortByDateDesc store) i);
          next :=
            option_map (select defaultPruneLength)
              (adjacentNewer (sortByDateDesc store) i) |})
    (nth_error (sortByDateDesc store) i).
Proof.
  unfold createPostPages. rewrite mapi_nth_error.
  destruct i; reflexivity.
Qed.

End NavigationProperties.

(** Claim C4.  The pages of the posts are made from the single
    date-descending sequence of all posts.  On the page of the [i]-th post
    of that sequence the previous link is rendered if and only if an older
    adjacent post exists, the next link if and only if a newer adjacent
    post exists, and each link leads to that post; so the page of the
    newest post has no next link and the page of the oldest post has no
    previous link. *)
Theorem C4_post_navigation {imports : Imports} (store : list Post)
  (data : Data Node) (location : Location) (i : nat)
  (pageContext : PageContext) :
  nth_error (createPostPages store) i = Some pageContext ->
  Permutation (sortByDateDesc store) store /\
  StronglySorted newerOrSame (sortByDateDesc store) /\
  option_map post_slug (nth_error (sortByDateDesc store) i)
  = Some (ctx_slug pageContext) /\
  (navLink "prev" (BlogPostTemplate data pageContext location) <> None <->
   adjacentOlder (sortByDateDesc store) i <> None) /\
  (navLink "next" (BlogPostTemplate data pageContext location) <> None <->
   adjacentNewer (sortByDateDesc store) i <> None) /\
  option_map (attr "to")
    (navLink "prev" (BlogPostTemplate data pageContext location))
  = option_map (fun q => Some (post_slug q))
      (adjacentOlder (sortByDateDesc store) i) /\
  option_map (attr "to")
    (navLink "next" (BlogPostTemplate data pageContext location))
  = option_map (fun q => Some (post_slug q))
      (adjacentNewer (sortByDateDesc store) i) /\
  (i = 0 ->
   navLink "next" (BlogPostTemplate data pageContext location) = None) /\
  (S i = length store ->
   navLink "prev" (BlogPostTemplate data pageContext location) = None).
Proof.
  intros Hpage.
  rewrite createPostPages_nth_error in Hpage.
  destruct (nth_error (sortByDateDesc store) i) as [post|] eqn:Hpost;
    [|discriminate].
  injection Hpage as <-.
  pose proof (navLink_prev data
                {| ctx_slug := post_slug post;
                   previous :=
                     option_map (select defaultPruneLength)
                       (adjacentOlder (sortByDateDesc store) i);
                   next :=
                     option_map (select defaultPruneLength)
                       (adjacentNewer (sortByDateDesc store) i) |}
                location) as Hprev.
  pose proof (navLink_next data
                {| ctx_slug := post_slug post;
                   previous :=
                     option_map (select defaultPruneLength)
                       (adjacentOlder (sortByDateDesc store) i);
                   next :=
                     option_map (select defaultPruneLength)
                       (adjacentNewer (sortByDateDesc store) i) |}
                location) as Hnext.
  cbn [previous next] in Hprev, Hnext.
  assert (Hlast : S i = length store ->
                  adjacentOlder (sortByDateDesc store) i = None).
  { intros Hi. apply nth_error_None. rewrite sortByDateDesc_length. lia. }
  destruct (navLink "prev" _) as [prevLink|],
    (navLink "next" _) as [nextLink|],
    (adjacentOlder (sortByDateDesc store) i) as [older|] eqn:Holder,
    (adjacentNewer (sortByDateDesc store) i) as [newer|] eqn:Hnewer;
    try discriminate Hprev; try discriminate Hnext.
  all: split; [apply sortByDateDesc_perm|].
  all: split; [apply sortByDateDesc_sorted|].
  all: split; [reflexivity|].
  all: split; [split; congruence|].
  all: split; [split; congruence|].
  all: split; [exact Hprev|].
  all: split; [exact Hnext|].
  all: split;
    [ intros ->; cbn in Hnewer; congruence
    | intros Hi; specialize (Hlast Hi); congruence ].
Qed.

Lemma C4_post_navigation_witness :
  option_map (attr "to")
    (navLink "prev"
       (BlogPostTemplate (imports := exampleImports) dataB contextB
          postLocation))
  = Some (Some "/A/") /\
  option_map (attr "to")
    (navLink "next"
       (BlogPostTemplate (imports := exampleImports) dataB contextB
          postLocation))
  = Some (Some "/C/").
Proof.
  destruct (C4_post_navigation (imports := exampleImports) scenario dataB
              postLocation 1 contextB eq_refl)
    as (_ & _ & _ & _ & _ & Hprev & Hnext & _).
  split; [exact Hprev | exact Hnext].
Defined.

(** The date-descending order of the scenario's posts. *)
Lemma scenario_sorted (store : list Post) :
  Permutation store scenario -> sortByDateDesc store = [postC; postB; postA].
Proof.
  intros Hperm.
  assert (Hsc : Permutation (sortByDateDesc store) scenario)
    by (rewrite sortByDateDesc_perm; exact Hperm).
  apply sorted_perm_unique.
  - apply sortByDateDesc_sorted.
  - repeat constructor.
  - rewrite Hsc. unfold scenario.
    apply Permutation_rev with (l := [postA; postB; postC]).
  - intros p q Hp Hq.
    apply (Permutation_in _ Hsc) in Hp, Hq.
    unfold scenario in Hp, Hq. cbn in Hp, Hq.
    destruct Hp as [<-|[<-|[<-|[]]]], Hq as [<-|[<-|[<-|[]]]];
      unfold newerOrSame; cbn; congruence.
Qed.

(** Claim C6.  The blog index lists all posts of the content store, one
    list item each, newest first by publish date; for the scenario's posts
    A (2019-01-01), B (2019-02-01) and C (2019-03-01), in whatever order
    the store holds them, the rendered order is C, B, A. *)
Theorem C6_blog_index_newest_first {imports : Imports} (store : list Post)
  (location : Location) :
  (exists posts,
      Permutation posts store /\
      StronglySorted newerOrSame posts /\
      mainItems (BlogIndex (BlogIndex_pageQuery store) location) =
      map (fun p => PostListItem (select defaultPruneLength p) None) posts) /\
  (Permutation store scenario ->
   map displayedTitle
     (mainItems (BlogIndex (BlogIndex_pageQuery store) location))
   = [Some "C"; Some "B"; Some "A"]).
Proof.
  split.
  - exists (sortByDateDesc store).
    split; [apply sortByDateDesc_perm|].
    split; [apply sortByDateDesc_sorted|].
    rewrite BlogIndex_mainItems, BlogIndex_pageQuery_edges, map_map.
    reflexivity.
  - intros Hperm.
    rewrite BlogIndex_mainItems, BlogIndex_pageQuery_edges,
      (scenario_sorted store Hperm).
    reflexivity.
Qed.

Lemma C6_blog_index_witness :
  map displayedTitle
    (mainItems
       (BlogIndex (imports := exampleImports)
          (BlogIndex_pageQuery (imports := exampleImports)
             [postB; postC; postA])
          homeLocation))
  = [Some "C"; Some "B"; Some "A"].
Proof.
  apply (proj2 (C6_blog_index_newest_first (imports := exampleImports)
                  [postB; postC; postA] homeLocation)).
  unfold scenario.
  apply perm_trans with (l' := [postB; postA; postC]).
  - apply perm_skip, perm_swap.
  - apply perm_swap.
Defined.

(** ** The scenario of the specification, evaluated *)

Example scenario_tag_x_page :
  pageHeading
    (Tags (imports := exampleImports) "x"
       (Tags_pageQuery (imports := exampleImports) "x" scenario)
       homeLocation)
  = Some ("2 posts tagged with " ++ dquote ++ "x" ++ dquote)%string /\
  map displayedTitle
    (mainItems
       (Tags (imports := exampleImports) "x"
          (Tags_pageQuery (imports := exampleImports) "x" scenario)
          homeLocation))
  = [Some "B"; Some "A"].
Proof. split; reflexivity. Qed.

Example scenario_tag_y_page :
  pageHeading
    (Tags (imports := exampleImports) "y"
       (Tags_pageQuery (imports := exampleImports) "y" scenario)
       homeLocation)
  = Some ("2 posts tagged with " ++ dquote ++ "y" ++ dquote)%string /\
  map displayedTitle
    (mainItems
       (Tags (imports := exampleImports) "y"
          (Tags_pageQuery (imports := exampleImports) "y" scenario)
          homeLocation))
  = [Some "C"; Some "B"].
Proof. split; reflexivity. Qed.

Example scenario_tags_index :
  map textOf
    (tagEntries
       (TagsPage (imports := exampleImports)
          (TagsPage_pageQuery (imports := exampleImports) scenario)
          homeLocation))
  = ["x (2)"; "y (2)"].
Proof. reflexivity. Qed.

Example scenario_post_pages :
  map (fun c =>
         (ctx_slug c,
          option_map (fun n => n.(fields).(slug)) (previous c),
          option_map (fun n => n.(fields).(slug)) (next c)))
      (createPostPages (imports := exampleImports) scenario)
  = [("/C/", Some "/B/", None);
     ("/B/", Some "/A/", Some "/C/");
     ("/A/", None, Some "/B/")].
Proof. reflexivity. Qed.

Example scenario_chips :
  map textOf
    (chipsOf
       (BlogPostTemplate (imports := exampleImports)
          {| site := siteMetadata;
             remark :=
               select (imports := exampleImports) 160
                 (examplePost "D" 7 ["react"; "hoc"; "higher-order"]) |}
          contextB postLocation))
  = [("higher-order," ++ nbsp)%string; ("hoc," ++ nbsp)%string; "react"].
Proof. reflexivity. Qed.

(** * Further properties of the templates and queries *)

(** ** Strings and lists *)

Lemma string_app_inv_head (s a b : string) :
  (s ++ a)%string = (s ++ b)%string -> a = b.
Proof.
  induction s as [|c s IH]; cbn; intros H; [exact H|].
  injection H as H. now apply IH.
Qed.

Lemma string_length_app (a b : string) :
  String.length (a ++ b)%string = String.length a + String.length b.
Proof. induction a as [|c a IH]; cbn; [reflexivity | now rewrite IH]. Qed.

Lemma js_or_not_blank (a : option string) (b : string) :
  b <> EmptyString -> js_or a b <> EmptyString.
Proof.
  intros Hb. rewrite js_or_cases. destruct a as [s|]; [|exact Hb].
  destruct (String.eqb_spec s EmptyString) as [_|Hs]; assumption.
Qed.

Lemma sort_insert_head (x : string) (l : list string) :
  HdRel alphabetical x l -> sort_insert x l = x :: l.
Proof.
  intros [|h t Hxh]; [reflexivity|].
  cbn. unfold alphabetical in Hxh. now rewrite Hxh.
Qed.

(** Sorting a sorted array leaves it as it is. *)
Lemma js_sort_of_sorted (l : list string) :
  Sorted alphabetical l -> js_sort l = l.
Proof.
  induction 1 as [|x l Hs IH Hhd]; [reflexivity|].
  cbn. fold (js_sort l). rewrite IH. now apply sort_insert_head.
Qed.

Lemma js_sort_idempotent (l : list string) : js_sort (js_sort l) = js_sort l.
Proof.
  apply js_sort_of_sorted, StronglySorted_Sorted, js_sort_sorted.
Qed.

Lemma In_firstn {A : Type} (n : nat) (l : list A) (x : A) :
  In x (firstn n l) -> In x l.
Proof.
  intros Hin. rewrite <- (firstn_skipn n l). apply in_or_app. now left.
Qed.

Lemma StronglySorted_firstn {A : Type} (R : A -> A -> Prop) (n : nat)
  (l : list A) :
  StronglySorted R l -> StronglySorted R (firstn n l).
Proof.
  revert n. induction l as [|x l IH]; intros [|n] Hs; cbn; try constructor.
  - apply IH. now apply StronglySorted_inv in Hs.
  - apply StronglySorted_inv in Hs as [_ Hall].
    rewrite Forall_forall in *. intros y Hy. apply Hall.
    now apply In_firstn in Hy.
Qed.

(** ** The post list item *)

(** X1.  A list item rendered without a title prop never shows a blank
    title as long as the slug is not blank, and never a blank snippet as
    long as the excerpt is not blank: the fallbacks take over from a
    missing and from an empty frontmatter field alike. *)
Theorem PostListItem_never_blank {imports : Imports} (node : Node) :
  (node.(fields).(slug) <> EmptyString ->
   exists t, displayedTitle (PostListItem node None) = Some t /\
             t <> EmptyString) /\
  (node.(excerpt) <> EmptyString ->
   forall titleProp,
   exists d, bodySnippet (PostListItem node titleProp) = Some d /\
             d <> EmptyString).
Proof.
  split.
  - intros Hslug. eexists. split; [apply PostListItem_displayedTitle|].
    now apply js_or_not_blank.
  - intros Hex titleProp. eexists.
    split; [apply PostListItem_bodySnippet|].
    now apply js_or_not_blank.
Qed.

Lemma PostListItem_never_blank_witness :
  (exists t,
      displayedTitle
        (PostListItem (imports := exampleImports) blankNode None) = Some t /\
      t <> EmptyString) /\
  (exists d,
      bodySnippet
        (PostListItem (imports := exampleImports) blankNode None) = Some d /\
      d <> EmptyString).
Proof.
  split.
  - apply (proj1 (PostListItem_never_blank (imports := exampleImports)
                    blankNode)).
    discriminate.
  - apply (proj2 (PostListItem_never_blank (imports := exampleImports)
                    blankNode)).
    discriminate.
Defined.

(** X2.  A title prop given by the caller is displayed as it is, the empty
    string included, whatever the frontmatter holds: the default of the
    prop is not consulted.  Whatever the title, the link leads to the slug
    and carries [rel="bookmark"], and the slug is the key of the item. *)
Theorem PostListItem_title_prop {imports : Imports} (node : Node)
  (t : string) (titleProp : option string) :
  displayedTitle (PostListItem node (Some t)) = Some t /\
  option_map (attr "to") (descend ["h3"; "Link"] (PostListItem node titleProp))
  = Some (Some (node.(fields).(slug))) /\
  option_map (attr "rel") (descend ["h3"; "Link"] (PostListItem node titleProp))
  = Some (Some "bookmark") /\
  attr "key" (PostListItem node titleProp) = Some (node.(fields).(slug)) /\
  bodySnippet (PostListItem node titleProp)
  = bodySnippet (PostListItem node None).
Proof.
  split; [apply PostListItem_displayedTitle|].
  repeat split; reflexivity.
Qed.

(** ** The tag page *)

(** X3.  The header of a tag page says [post] for exactly one post and
    [posts] for every other count, zero included. *)
Theorem Tags_header_plural {imports : Imports} (tag : string)
  (data : Data Connection) (location : Location) :
  (pageHeading (Tags tag data location) =
   Some (numToString (totalCount (remark data)) ++ " post"
           ++ " tagged with " ++ dquote ++ tag ++ dquote)%string
   <-> totalCount (remark data) = 1) /\
  (pageHeading (Tags tag data location) =
   Some (numToString (totalCount (remark data)) ++ " posts"
           ++ " tagged with " ++ dquote ++ tag ++ dquote)%string
   <-> totalCount (remark data) <> 1).
Proof.
  rewrite Tags_pageHeading. unfold tagHeader.
  destruct (Nat.eqb_spec (totalCount (remark data)) 1) as [Hone|Hmany].
  - split; split; try (intros; congruence); try reflexivity.
    intros H. injection H as H. apply string_app_inv_head in H.
    discriminate H.
  - split; split; try (intros; congruence); try reflexivity.
    intros H. injection H as H. apply string_app_inv_head in H.
    discriminate H.
Qed.

Lemma filter_map_comm {A B : Type} (f : B -> bool) (g : A -> B)
  (l : list A) :
  filter f (map g l) = map g (filter (fun x => f (g x)) l).
Proof.
  induction l as [|x l IH]; [reflexivity|].
  cbn. destruct (f (g x)); cbn; now rewrite IH.
Qed.

Lemma insertByDateDesc_front (p : Post) (l : list Post) :
  Forall (fun q => newerOrSame p q) l -> insertByDateDesc p l = p :: l.
Proof.
  intros [|q t Hq _]; [reflexivity|].
  cbn. unfold newerOrSame in Hq. now rewrite Hq.
Qed.

Lemma insertByDateDesc_filter_out (f : Post -> bool) (p : Post)
  (l : list Post) :
  f p = false -> filter f (insertByDateDesc p l) = filter f l.
Proof.
  intros Hp. induction l as [|q t IH]; cbn.
  - now rewrite Hp.
  - destruct (Date.leb (post_date q) (post_date p)); cbn.
    + now rewrite Hp.
    + now rewrite IH.
Qed.

Lemma insertByDateDesc_filter_in (f : Post -> bool) (p : Post)
  (l : list Post) :
  StronglySorted newerOrSame l -> f p = true ->
  filter f (insertByDateDesc p l) = insertByDateDesc p (filter f l).
Proof.
  intros Hs Hp. induction Hs as [|q t Hs IH Hall]; cbn.
  - now rewrite Hp.
  - destruct (Date.leb (post_date q) (post_date p)) eqn:Hqp.
    + cbn [filter]. rewrite Hp. destruct (f q) eqn:Hq.
      * cbn. now rewrite Hqp.
      * symmetry. apply insertByDateDesc_front.
        rewrite Forall_forall in *. intros r Hr.
        apply filter_In in Hr as [Hr _].
        apply (newerOrSame_trans p q r); [exact Hqp | now apply Hall].
    + cbn [filter]. destruct (f q) eqn:Hq.
      * cbn. rewrite Hqp. now rewrite IH.
      * exact IH.
Qed.

Lemma sortByDateDesc_cons (p : Post) (l : list Post) :
  sortByDateDesc (p :: l) = insertByDateDesc p (sortByDateDesc l).
Proof. reflexivity. Qed.

(** Filtering commutes with the date sort: the sort keeps the order of the
    store among posts of one date. *)
Lemma sortByDateDesc_filter (f : Post -> bool) (l : list Post) :
  sortByDateDesc (filter f l) = filter f (sortByDateDesc l).
Proof.
  induction l as [|p l IH]; [reflexivity|].
  rewrite sortByDateDesc_cons. cbn [filter]. destruct (f p) eqn:Hp.
  - rewrite sortByDateDesc_cons, IH.
    symmetry. apply insertByDateDesc_filter_in;
      [apply sortByDateDesc_sorted | exact Hp].
  - rewrite IH. symmetry. now apply insertByDateDesc_filter_out.
Qed.

(** X4.  A tag page lists only posts of the store that carry its tag,
    newest first; and it lists every such post when at most 2000 posts
    carry the tag. *)
Theorem Tags_lists_tagged_posts {imports : Imports} (tag : string)
  (store : list Post) (location : Location) :
  (exists posts,
      mainItems (Tags tag (Tags_pageQuery tag store) location) =
      map (fun p => PostListItem (select defaultPruneLength p) None) posts /\
      StronglySorted newerOrSame posts /\
      forall p, In p posts -> In p store /\ carriesTag tag p) /\
  (taggedCount tag store <= 2000 ->
   forall p, In p store -> carriesTag tag p ->
   In (PostListItem (select defaultPruneLength p) None)
     (mainItems (Tags tag (Tags_pageQuery tag store) location))).
Proof.
  split.
  - exists (firstn 2000 (sortByDateDesc (filter (tagsIn tag) store))).
    split.
    { rewrite Tags_mainItems, Tags_pageQuery_edges, map_map. reflexivity. }
    split.
    { apply StronglySorted_firstn, sortByDateDesc_sorted. }
    intros p Hp. apply In_firstn in Hp.
    apply (Permutation_in p (sortByDateDesc_perm _)) in Hp.
    apply filter_In in Hp as [Hin Htag].
    split; [exact Hin | now apply tagsIn_carriesTag].
  - intros Hcount p Hin Htag.
    rewrite Tags_mainItems, Tags_pageQuery_edges, map_map.
    apply (in_map (fun p => PostListItem (select defaultPruneLength p) None)).
    rewrite firstn_all2.
    + apply (Permutation_in p (Permutation_sym (sortByDateDesc_perm _))).
      apply filter_In. split; [exact Hin | now apply tagsIn_carriesTag].
    + rewrite sortByDateDesc_length, filter_tagsIn. exact Hcount.
Qed.

Lemma Tags_lists_tagged_posts_witness :
  In (PostListItem (imports := exampleImports) nodeA None)
    (mainItems
       (Tags (imports := exampleImports) "x"
          (Tags_pageQuery (imports := exampleImports) "x" scenario)
          homeLocation)).
Proof.
  apply (proj2 (Tags_lists_tagged_posts (imports := exampleImports) "x"
                  scenario homeLocation)).
  - vm_compute. lia.
  - left. reflexivity.
  - exists ["x"]. split; [reflexivity | left; reflexivity].
Defined.

(** X5.  The posts of a tag page are the posts of the blog index that
    carry the tag, in the order of the blog index, cut at 2000: the tag
    query and the index query agree on the order of the posts. *)
Theorem Tags_is_filtered_index {imports : Imports} (tag : string)
  (store : list Post) (location : Location) :
  edges (remark (Tags_pageQuery tag store)) =
  firstn 2000
    (filter (carries tag) (edges (remark (BlogIndex_pageQuery store)))) /\
  mainItems (Tags tag (Tags_pageQuery tag store) location) =
  map (fun node => PostListItem node None)
    (firstn 2000
       (filter (carries tag) (edges (remark (BlogIndex_pageQuery store))))).
Proof.
  assert (Hedges :
    edges (remark (Tags_pageQuery tag store)) =
    firstn 2000
      (filter (carries tag) (edges (remark (BlogIndex_pageQuery store))))).
  { rewrite Tags_pageQuery_edges, BlogIndex_pageQuery_edges.
    rewrite filter_map_comm, firstn_map, sortByDateDesc_filter.
    reflexivity. }
  split; [exact Hedges|].
  now rewrite Tags_mainItems, Hedges.
Qed.



(** ** The tags index *)

Lemma taggedCount_firstn (tag : string) (n : nat) (store : list Post) :
  taggedCount tag (firstn n store) <= taggedCount tag store.
Proof.
  unfold taggedCount.
  rewrite <- (firstn_skipn n store) at 2.
  rewrite filter_app, length_app. lia.
Qed.

Lemma taggedCount_le_length (tag : string) (store : list Post) :
  taggedCount tag store <= length store.
Proof. unfold taggedCount. apply filter_length_le. Qed.

Section TagsIndexCounts.
Context {imports : Imports}.

Lemma TagsPage_pageQuery_count (store : list Post) (g : Group.t) :
  In g (remark (TagsPage_pageQuery store)) ->
  Group.totalCount g = taggedCount (Group.fieldValue g) (firstn 2000 store).
Proof.
  intros Hg. apply group_totalCount in Hg.
  now rewrite Hg, TagsPage_pageQuery_edges, carries_count.
Qed.

Lemma TagsPage_pageQuery_carried (store : list Post) (g : Group.t) :
  In g (remark (TagsPage_pageQuery store)) ->
  exists p, In p (firstn 2000 store) /\ carriesTag (Group.fieldValue g) p.
Proof.
  intros Hg.
  apply (in_map Group.fieldValue) in Hg.
  apply group_fieldValue_In in Hg.
  rewrite TagsPage_pageQuery_edges in Hg. now apply carries_some in Hg.
Qed.

Lemma taggedCount_pos (tag : string) (store : list Post) (p : Post) :
  In p store -> carriesTag tag p -> 1 <= taggedCount tag store.
Proof.
  intros Hin Htag. unfold taggedCount.
  assert (Hp : In p (filter (fun p => if carriesTag_dec tag p then true
                                       else false) store)).
  { apply filter_In. split; [exact Hin|].
    destruct (carriesTag_dec tag p); [reflexivity | contradiction]. }
  destruct (filter _ store); [contradiction | cbn; lia].
Qed.

End TagsIndexCounts.

(** X7.  The tags index never lists a tag without posts: every entry
    reads [tag (n)] with [n] between 1 and 2000. *)
Theorem TagsPage_counts_positive {imports : Imports} (store : list Post)
  (location : Location) (entry : vnode) :
  In entry (tagEntries (TagsPage (TagsPage_pageQuery store) location)) ->
  exists tag n,
    1 <= n <= 2000 /\
    textOf entry = (tag ++ " (" ++ numToString n ++ ")")%string.
Proof.
  rewrite TagsPage_tagEntries. intros Hentry.
  apply in_map_iff in Hentry as [g [<- Hg]].
  exists (Group.fieldValue g), (Group.totalCount g).
  split; [|reflexivity].
  rewrite (TagsPage_pageQuery_count store g Hg).
  destruct (TagsPage_pageQuery_carried store g Hg) as [p [Hp Htag]].
  split; [now apply (taggedCount_pos _ _ p)|].
  etransitivity; [apply taggedCount_le_length|].
  rewrite length_firstn. apply Nat.le_min_l.
Qed.

Lemma TagsPage_counts_positive_witness :
  exists tag n,
    1 <= n <= 2000 /\
    "x (2)" = (tag ++ " (" ++ numToString n ++ ")")%string.
Proof.
  apply (TagsPage_counts_positive (imports := exampleImports) scenario
           homeLocation
           (VElem "li" [("key", "x")] []
              [VElem "Link" [("to", "/tags/x/")] []
                 [VText "x"; VText " ("; VText "2"; VText ")"]])).
  left. reflexivity.
Defined.

(** X8.  The count that the tags index shows for a tag never exceeds the
    count in the header of that tag's page, and the two are equal when the
    store holds at most 2000 posts. *)
Theorem TagsPage_count_vs_tag_page {imports : Imports} (store : list Post)
  (g : Group.t) :
  In g (remark (TagsPage_pageQuery store)) ->
  Group.totalCount g
  <= totalCount (remark (Tags_pageQuery (Group.fieldValue g) store)) /\
  (length store <= 2000 ->
   Group.totalCount g
   = totalCount (remark (Tags_pageQuery (Group.fieldValue g) store))).
Proof.
  intros Hg.
  rewrite (TagsPage_pageQuery_count store g Hg), Tags_pageQuery_totalCount.
  split; [apply taggedCount_firstn|].
  intros Hlen. now rewrite firstn_all2.
Qed.

Lemma TagsPage_count_vs_tag_page_witness :
  2 = totalCount
        (remark (Tags_pageQuery (imports := exampleImports) "y" scenario)).
Proof.
  apply (proj2 (TagsPage_count_vs_tag_page (imports := exampleImports)
                  scenario
                  {| Group.fieldValue := "y"; Group.totalCount := 2 |}
                  (or_intror (or_introl eq_refl)))).
  cbn. lia.
Defined.

(** ** The post template *)

Section ChipFacts.
Context {imports : Imports}.

Lemma tagChips_In (tags : list string) (chip : vnode) :
  In chip (tagChips tags) ->
  exists tag,
    In tag tags /\
    attr "key" chip = Some tag /\
    child "Link" chip =
    Some (VElem "Link" [("to", tagRoute tag)] [] [VText tag]).
Proof.
  intros Hchip. apply In_nth_error in Hchip as [i Hi].
  rewrite tagChips_nth_error in Hi.
  destruct (nth_error (js_sort tags) i) as [tag|] eqn:Htag; [|discriminate].
  injection Hi as <-. exists tag.
  split; [|split; reflexivity].
  apply js_sort_In. now apply nth_error_In in Htag.
Qed.

Lemma tagChips_keys (tags : list string) :
  map (attr "key") (tagChips tags) = map Some (js_sort tags).
Proof.
  apply nth_error_ext. intros i.
  rewrite !nth_error_map, tagChips_nth_error.
  destruct (nth_error (js_sort tags) i); reflexivity.
Qed.

End ChipFacts.

(** X9.  Every tag chip on the page of a post that is among the first 2000
    of the store leads to a route that the tags index links as well: the
    index has an entry with the same link. *)
Theorem chips_lead_to_indexed_tags {imports : Imports} (store : list Post)
  (post : Post) (pageContext : PageContext) (location : Location)
  (chip : vnode) :
  In post (firstn 2000 store) ->
  In chip
    (chipsOf
       (BlogPostTemplate {| site := siteMetadata; remark := select 160 post |}
          pageContext location)) ->
  exists link entry,
    child "Link" chip = Some link /\
    In entry (tagEntries (TagsPage (TagsPage_pageQuery store) location)) /\
    option_map (attr "to") (child "Link" entry) = Some (attr "to" link).
Proof.
  intros Hpost Hchip.
  rewrite BlogPostTemplate_chipsOf in Hchip.
  apply tagChips_In in Hchip as [tag [Htag [_ Hlink]]].
  assert (Hcarried : carriesTag tag post).
  { cbn in Htag. unfold carriesTag.
    destruct (post_tags post) as [ts|]; [|contradiction].
    now exists ts. }
  assert (Hlisted :
    In tag (map Group.fieldValue (remark (TagsPage_pageQuery store)))).
  { apply group_fieldValue_In. rewrite TagsPage_pageQuery_edges.
    apply carries_some. now exists post. }
  apply in_map_iff in Hlisted as [g [Hg Hin]].
  eexists. eexists. split; [exact Hlink|].
  split.
  - rewrite TagsPage_tagEntries. apply in_map_iff.
    exists g. split; [reflexivity | exact Hin].
  - cbn. now rewrite Hg.
Qed.

Lemma chips_lead_to_indexed_tags_witness :
  exists link entry,
    child "Link"
      (VElem "li" [("key", "x")] [("marginBottom", "0")]
         [VElem "Link" [("to", "/tags/x/")] [] [VText "x"];
          VText ("," ++ nbsp)%string])
    = Some link /\
    In entry
      (tagEntries
         (TagsPage (imports := exampleImports)
            (TagsPage_pageQuery (imports := exampleImports) scenario)
            postLocation)) /\
    option_map (attr "to") (child "Link" entry) = Some (attr "to" link).
Proof.
  apply (chips_lead_to_indexed_tags (imports := exampleImports) scenario
           postB contextB postLocation).
  - right. left. reflexivity.
  - left. reflexivity.
Defined.

(** X10.  A post without tags, be the field missing or an empty list, gets
    no chip at all, and its header still holds the (empty) chip list; any
    other post gets one chip per tag. *)
Theorem BlogPostTemplate_without_tags {imports : Imports} (data : Data Node)
  (pageContext : PageContext) (location : Location) :
  length (chipsOf (BlogPostTemplate data pageContext location))
  = length (js_or_nil ((remark data).(frontmatter).(tags))) /\
  (chipsOf (BlogPostTemplate data pageContext location) = [] <->
   (remark data).(frontmatter).(tags) = None \/
   (remark data).(frontmatter).(tags) = Some []) /\
  option_map tagOf
    (descend ["main"; "article"; "header"; "ul"]
       (BlogPostTemplate data pageContext location))
  = Some "ul".
Proof.
  rewrite BlogPostTemplate_chipsOf.
  split; [apply tagChips_length|].
  split; [|reflexivity].
  rewrite <- length_zero_iff_nil, tagChips_length, length_zero_iff_nil.
  destruct ((remark data).(frontmatter).(tags)) as [[|t ts]|]; cbn.
  - split; [now right | reflexivity].
  - split; [discriminate | intros [H|H]; discriminate].
  - split; [now left | reflexivity].
Qed.

Lemma NoDup_map_Some {A : Type} (l : list A) :
  NoDup l -> NoDup (map Some l).
Proof.
  induction 1 as [|x l Hx Hnd IH]; cbn; constructor; [|exact IH].
  intros Hin. apply in_map_iff in Hin as [y [Hy Hin]].
  injection Hy as ->. exact (Hx Hin).
Qed.

(** X11.  The key of a chip is its tag, so the keys of the chips are
    pairwise distinct exactly when the tags of the post are. *)
Theorem chip_keys_distinct_iff {imports : Imports} (data : Data Node)
  (pageContext : PageContext) (location : Location) :
  NoDup (map (attr "key")
           (chipsOf (BlogPostTemplate data pageContext location)))
  <-> NoDup (js_or_nil ((remark data).(frontmatter).(tags))).
Proof.
  rewrite BlogPostTemplate_chipsOf, tagChips_keys.
  split; intros Hnd.
  - apply NoDup_map_inv in Hnd.
    eapply Permutation_NoDup; [apply js_sort_perm | exact Hnd].
  - apply NoDup_map_Some.
    eapply Permutation_NoDup; [symmetry; apply js_sort_perm | exact Hnd].
Qed.


(** X13.  The earlier revision of the post template renders the same
    navigation and hands the same props to SEO as the later one, and it
    renders no tag chip and no link inside [main], whatever tags the post
    has. *)
Theorem BlogPostTemplate_revisions_agree {imports : Imports}
  (data : Data Node) (pageContext : PageContext) (location : Location) :
  descend ["footer"; "nav"]
    (BlogPostTemplateUntagged data pageContext location)
  = descend ["footer"; "nav"] (BlogPostTemplate data pageContext location) /\
  descend ["SEO"] (BlogPostTemplateUntagged data pageContext location)
  = descend ["SEO"] (BlogPostTemplate data pageContext location) /\
  chipsOf (BlogPostTemplateUntagged data pageContext location) = [] /\
  match descend ["main"]
          (BlogPostTemplateUntagged data pageContext location) with
  | Some main => byTag "Link" main = []
  | None => False
  end.
Proof.
  repeat split. cbn.
  destruct ((remark data).(frontmatter).(title)); reflexivity.
Qed.

(** X14.  A post page renders its previous link exactly when the page
    context has a previous post, and its next link exactly when it has a
    next post.  The link leads to the slug of that post and shows its
    title beside an arrow, or the arrow alone when that post has no
    title. *)
Theorem post_nav_links {imports : Imports} (data : Data Node)
  (pageContext : PageContext) (location : Location) :
  match previous pageContext with
  | Some p =>
      exists link,
        navLink "prev" (BlogPostTemplate data pageContext location)
        = Some link /\
        attr "to" link = Some (p.(fields).(slug)) /\
        textOf link =
        ("← " ++ match p.(frontmatter).(title) with
                 | Some t => t
                 | None => EmptyString
                 end)%string
  | None =>
      navLink "prev" (BlogPostTemplate data pageContext location) = None
  end /\
  match next pageContext with
  | Some n =>
      exists link,
        navLink "next" (BlogPostTemplate data pageContext location)
        = Some link /\
        attr "to" link = Some (n.(fields).(slug)) /\
        textOf link =
        (match n.(frontmatter).(title) with
         | Some t => t
         | None => EmptyString
         end ++ " →")%string
  | None =>
      navLink "next" (BlogPostTemplate data pageContext location) = None
  end.
Proof.
  unfold navLink. rewrite BlogPostTemplate_nav.
  destruct (previous pageContext) as [p|], (next pageContext) as [n|]; cbn.
  all: try destruct (p.(frontmatter).(title));
    try destruct (n.(frontmatter).(title)); cbn.
  all: split; try reflexivity; eexists; repeat split; reflexivity.
Qed.

(** ** The blog index *)

(** X15.  Splitting [PostListItem] off the blog index did not change what
    the index renders: the revision with the list item written out in
    place renders the same page, and the revision whose bullet is the one
    character differs in the byline only. *)
Theorem BlogIndex_revisions_agree {imports : Imports}
  (data : Data Connection) (location : Location) :
  BlogIndexMisdecoded data location = BlogIndex data location /\
  map displayedTitle (mainItems (BlogIndexBullet data location))
  = map displayedTitle (mainItems (BlogIndex data location)) /\
  map bodySnippet (mainItems (BlogIndexBullet data location))
  = map bodySnippet (mainItems (BlogIndex data location)) /\
  map (fun item => option_map (attr "to") (descend ["h3"; "Link"] item))
    (mainItems (BlogIndexBullet data location))
  = map (fun item => option_map (attr "to") (descend ["h3"; "Link"] item))
      (mainItems (BlogIndex data location)) /\
  map (attr "key") (mainItems (BlogIndexBullet data location))
  = map (attr "key") (mainItems (BlogIndex data location)).
Proof.
  split; [reflexivity|].
  rewrite BlogIndex_mainItems.
  change (mainItems (BlogIndexBullet data location))
    with (map (fun node =>
                 VElem "div" [("key", node.(fields).(slug))] []
                   [VElem "h3" []
                      [("fontFamily", "Montserrat, sans-serif");
                       ("fontSize", rhythm (1 # 1)%Q);
                       ("marginBottom", rhythm (1 # 4)%Q)]
                      [VElem "Link"
                         [("to", node.(fields).(slug)); ("rel", "bookmark")]
                         [("boxShadow", "none")]
                         [VText (js_or (node.(frontmatter).(title))
                                   (node.(fields).(slug)))]];
                    VElem "small" [] []
                      [VText (node.(frontmatter).(date));
                       VText " ";
                       VText (" • "
                                ++ formatReadingTime
                                     (node.(timeToRead)))%string];
                    VHtml "p" []
                      (js_or (node.(frontmatter).(description))
                         (node.(excerpt)))])
            (edges (remark data))).
  rewrite !map_map. repeat split; apply map_ext; reflexivity.
Qed.

(** ** The layout shell *)

(** X16.  On every route, the home route included, the header holds
    exactly one link; it leads to [/], whatever the path prefix, and shows
    the site title. *)
Theorem Layout_title_links_home {imports : Imports} (location : Location)
  (title : string) (children : list vnode) :
  exists header link,
    descend ["header"] (Layout location title children) = Some header /\
    byTag "Link" header = [link] /\
    attr "to" link = Some "/" /\
    textOf link = title.
Proof.
  unfold Layout. cbn.
  destruct (pathname location =? rootPath);
    do 2 eexists; repeat split; reflexivity.
Qed.

Lemma string_neq_app_slash (s : string) : s <> (s ++ "/")%string.
Proof.
  intros H. apply (f_equal String.length) in H.
  rewrite string_length_app in H. cbn in H. lia.
Qed.

(** X17.  The enlarged heading is kept for the path that is the prefix
    followed by a slash.  The prefix itself, without the trailing slash,
    gets the compact heading, and so does the path [/] of a site served
    under a non-empty prefix. *)
Theorem Layout_home_needs_exact_path {imports : Imports}
  (location : Location) (title : string) (children : list vnode) :
  (pathname location = PATH_PREFIX ->
   option_map tagOf (layoutHeading (Layout location title children))
   = Some "h3") /\
  (PATH_PREFIX <> EmptyString -> pathname location = "/" ->
   option_map tagOf (layoutHeading (Layout location title children))
   = Some "h3").
Proof.
  unfold layoutHeading, Layout, rootPath. cbn.
  destruct (String.eqb_spec (pathname location) (PATH_PREFIX ++ "/"))
    as [Heq|Hne]; cbn.
  - split.
    + intros Hp. rewrite Hp in Heq. now apply string_neq_app_slash in Heq.
    + intros Hprefix Hp. rewrite Hp in Heq.
      apply (f_equal String.length) in Heq.
      rewrite string_length_app in Heq. cbn in Heq.
      destruct PATH_PREFIX; [contradiction | cbn in Heq; lia].
  - split; reflexivity.
Qed.

Lemma Layout_home_needs_exact_path_witness :
  option_map tagOf
    (layoutHeading
       (Layout (imports := prefixedImports) {| pathname := "/blog" |}
          "Jan Hesters" []))
  = Some "h3" /\
  option_map tagOf
    (layoutHeading
       (Layout (imports := prefixedImports) homeLocation "Jan Hesters" []))
  = Some "h3".
Proof.
  split.
  - apply (proj1 (Layout_home_needs_exact_path (imports := prefixedImports)
                    {| pathname := "/blog" |} "Jan Hesters" [])).
    reflexivity.
  - apply (proj2 (Layout_home_needs_exact_path (imports := prefixedImports)
                    homeLocation "Jan Hesters" [])).
    + discriminate.
    + reflexivity.
Defined.

(** ** The post query *)

Lemma find_slug_NoDup (store : list Post) (p : Post) :
  NoDup (map post_slug store) -> In p store ->
  find (fun q => post_slug q =? post_slug p) store = Some p.
Proof.
  induction store as [|q store IH]; intros Hnd Hin; [contradiction|].
  cbn in Hnd. apply NoDup_cons_iff in Hnd as [Hq Hnd]. cbn.
  destruct (String.eqb_spec (post_slug q) (post_slug p)) as [Heq|Hne].
  - destruct Hin as [->|Hin]; [reflexivity|].
    exfalso. apply Hq. rewrite Heq. now apply in_map.
  - destruct Hin as [->|Hin]; [contradiction|]. now apply IH.
Qed.

(** X18.  While slugs are unique, the post query finds every post of the
    store by its slug, with the excerpt pruned at 160; and it answers
    [null] for a slug that no post has. *)
Theorem BlogPost_pageQuery_by_slug {imports : Imports} (store : list Post) :
  (NoDup (map post_slug store) ->
   forall p, In p store ->
   remark (BlogPost_pageQuery (post_slug p) store) = Some (select 160 p)) /\
  (forall slug, ~ In slug (map post_slug store) ->
   remark (BlogPost_pageQuery slug store) = None).
Proof.
  split.
  - intros Hnd p Hp. cbn. now rewrite (find_slug_NoDup store p Hnd Hp).
  - intros slug Hslug. cbn.
    destruct (find (fun p => post_slug p =? slug) store) as [q|] eqn:Hq;
      [|reflexivity].
    apply find_some in Hq as [Hin Heq]. apply String.eqb_eq in Heq.
    exfalso. apply Hslug. rewrite <- Heq. now apply in_map.
Qed.

Lemma BlogPost_pageQuery_by_slug_witness :
  remark (BlogPost_pageQuery (imports := exampleImports) "/B/" scenario)
  = Some (remark dataB) /\
  remark (BlogPost_pageQuery (imports := exampleImports) "/D/" scenario)
  = None.
Proof.
  split.
  - refine (proj1 (BlogPost_pageQuery_by_slug (imports := exampleImports)
                     scenario) _ postB _).
    + repeat constructor; cbn; intuition discriminate.
    + right. left. reflexivity.
  - apply (proj2 (BlogPost_pageQuery_by_slug (imports := exampleImports)
                    scenario)).
    cbn. intuition discriminate.
Defined.

(** ** The tag page beyond the limit *)

(** X19.  The header of a tag page counts all posts carrying the tag while
    the list stops at 2000: the count in the header is the number of posts
    listed exactly when at most 2000 posts carry the tag, and it is never
    smaller. *)
Theorem Tags_header_vs_list {imports : Imports} (tag : string)
  (store : list Post) (location : Location) :
  length (mainItems (Tags tag (Tags_pageQuery tag store) location))
  <= totalCount (remark (Tags_pageQuery tag store)) /\
  (length (mainItems (Tags tag (Tags_pageQuery tag store) location))
   = totalCount (remark (Tags_pageQuery tag store))
   <-> taggedCount tag store <= 2000).
Proof.
  rewrite Tags_mainItems, length_map, Tags_pageQuery_edges_length,
    Tags_pageQuery_totalCount.
  lia.
Qed.
